(** * Bimodal multicast: the reconciliation handlers and the callback registry

    A shallow embedding of the HTTP handlers of [pkg/internal/server/server.go],
    of the custom callback registry of package [callback] and of the node
    life cycle of package [bmmc], with the properties the specification
    states about them.

    Conventions.
    - A Go [error] is an [option string]: [None] is [nil].
    - A Go [map[string]T] is an [option (gmap string T)]: [None] is the nil map.
    - The shared buffers, the logger output, the requests put on the wire and
      the callbacks invoked are threaded through the handlers as a [Store].
    - A handler either returns or panics (index out of range). *)

From Stdlib Require Import Ascii String.
From stdpp Require Import base option list strings gmap fin_maps pretty.

Open Scope string_scope.

(** Go's [error] interface value. *)
Definition error : Type := option string.

(** Go's [map[string]T]; the nil map is [None]. *)
Definition gomap (T : Type) : Type := option (gmap string T).

(** [v, ok := m[k]] *)
Definition mapIndex {T : Type} (m : gomap T) (k : string) : option T :=
  match m with
  | None => None
  | Some g => g !! k
  end.

(** The sequences of (key, value) pairs a [for k, v := range m] may produce:
    every entry once, in an order the language leaves open. *)
Definition RangeOf {T : Type} (m : gomap T) (iter : list (string * T)) : Prop :=
  match m with
  | None => iter = []
  | Some g => iter ≡ₚ map_to_list g
  end.

(** The opaque [interface{}] payload of a message. *)
Definition Payload : Type := string.

(* ===================================================================== *)
(** ** Package [strings] *)

Module Strings.

(** [splitFrom sep skip cur s]: [cur] is the piece being read, [skip] the
    number of separator characters still to pass over. *)
Fixpoint splitFrom (sep : string) (skip : nat) (cur : string) (s : string)
  : list string :=
  match s with
  | EmptyString => [cur]
  | String c s' =>
      match skip with
      | S k => splitFrom sep k cur s'
      | O =>
          if String.prefix sep s
          then cur :: splitFrom sep (String.length sep - 1) "" s'
          else splitFrom sep 0 (cur +:+ String c "") s'
      end
  end.

(** The byte [c] as a number. *)
Definition byteOf (c : Ascii.ascii) : N := N_of_ascii c.

Definition inRange (lo hi : N) (c : Ascii.ascii) : bool :=
  (lo <=? byteOf c)%N && (byteOf c <=? hi)%N.

(** A continuation byte, [0x80] to [0xBF]. *)
Definition isCont (c : Ascii.ascii) : bool := inRange 128 191 c.

(** The size [utf8.DecodeRuneInString(s)] returns: the number of bytes of
    the UTF-8 sequence [s] begins with, 1 for a byte that begins no valid
    sequence, 0 for the empty string. The second byte of a sequence is
    held to a narrower range after the lead bytes [0xE0], [0xED], [0xF0]
    and [0xF4]. *)
Definition runeSize (s : string) : nat :=
  match s with
  | EmptyString => 0
  | String c0 rest =>
      let b := byteOf c0 in
      if (b <? 194)%N then 1
      else if (b <? 224)%N then
        match rest with
        | String c1 _ => if isCont c1 then 2 else 1
        | _ => 1
        end
      else if (b <? 240)%N then
        match rest with
        | String c1 (String c2 _) =>
            let lo := if (b =? 224)%N then 160%N else 128%N in
            let hi := if (b =? 237)%N then 159%N else 191%N in
            if inRange lo hi c1 && isCont c2 then 3 else 1
        | _ => 1
        end
      else if (b <? 245)%N then
        match rest with
        | String c1 (String c2 (String c3 _)) =>
            let lo := if (b =? 240)%N then 144%N else 128%N in
            let hi := if (b =? 244)%N then 143%N else 191%N in
            if inRange lo hi c1 && isCont c2 && isCont c3 then 4 else 1
        | _ => 1
        end
      else 1
  end.

(** [explodeFrom pending cur s]: [cur] is the sequence being read and
    [pending] the number of its bytes still to come. *)
Fixpoint explodeFrom (pending : nat) (cur : string) (s : string)
  : list string :=
  match s with
  | EmptyString =>
      match cur with
      | EmptyString => []
      | _ => [cur]
      end
  | String c s' =>
      let '(cur, pending) :=
        match pending with
        | O => (String c "", runeSize s - 1)
        | S k => (cur +:+ String c "", k)
        end in
      match pending with
      | O => cur :: explodeFrom 0 "" s'
      | S _ => explodeFrom pending cur s'
      end
  end.

(** [explode(s, -1)]: [s] cut into its UTF-8 sequences, a byte that
    begins no valid sequence being a piece of its own; the case of the
    empty separator, which no caller in the package uses. *)
Definition explode (s : string) : list string := explodeFrom 0 "" s.

(** [strings.Split(s, sep)] *)
Definition Split (s sep : string) : list string :=
  match sep with
  | EmptyString => explode s
  | _ => splitFrom sep 0 "" s
  end.

(** Occurrences of the character [c] in [s]. *)
Fixpoint countChar (c : Ascii.ascii) (s : string) : nat :=
  match s with
  | EmptyString => 0
  | String x s' => (if bool_decide (x = c) then 1 else 0) + countChar c s'
  end.

(** [strings.Contains(s, string(c))] *)
Definition ContainsChar (s : string) (c : Ascii.ascii) : bool :=
  bool_decide (0 < countChar c s).

End Strings.

(* ===================================================================== *)
(** ** Package [peer] *)

Module Peer.

Record Peer := { Addr : string; Port : string }.

Definition PeerBuffer : Type := list Peer.

End Peer.

(* ===================================================================== *)
(** ** Package [buffer] *)

Module Buffer.

(** Modelled from the spec: the message type of package [buffer], whose
    declaration is absent from this revision; the handlers read its fields
    [ID], [Msg] and [CallbackType], the tests set [GossipCount]. *)
Record Message := {
  ID : string;
  Msg : Payload;
  CallbackType : string;
  GossipCount : Z
}.

(** Modelled from the spec: the message buffer of package [buffer]; the
    handlers range over its field [Messages]. *)
Record MessageBuffer := { Messages : list Message }.

(** Modelled from the spec: a digest is the [id] and the [callback_type]
    of a message. *)
Record Digest := { DigestID : string; DigestCallbackType : string }.

(** Modelled from the spec: a digest buffer is a collection of digests. *)
Record DigestBuffer := { Digests : list Digest }.

Definition NewMessageBuffer : MessageBuffer := {| Messages := [] |}.

(** Is a message with identifier [id] stored in [b]? *)
Definition hasID (id : string) (b : MessageBuffer) : bool :=
  existsb (fun x => bool_decide (ID x = id)) (Messages b).

(** Modelled from the spec: [AddMessage(m)] of package [buffer], which
    "inserts [m] if no message with [m.id] exists; otherwise no-op". *)
Definition AddMessage (m : Message) (b : MessageBuffer) : MessageBuffer :=
  if hasID (ID m) b then b else {| Messages := Messages b ++ [m] |}.

Definition digestOf (m : Message) : Digest :=
  {| DigestID := ID m; DigestCallbackType := CallbackType m |}.

(** Modelled from the spec: [DigestBuffer()] of package [buffer], "a
    Digest Buffer built from all current messages", one digest for each
    message with its [id] and [callback_type]. *)
Definition DigestBufferOf (b : MessageBuffer) : DigestBuffer :=
  {| Digests := map digestOf (Messages b) |}.

(** Membership in a digest buffer is by [id]. *)
Definition hasDigest (id : string) (d : DigestBuffer) : bool :=
  existsb (fun x => bool_decide (DigestID x = id)) (Digests d).

(** Modelled from the spec: [GetMissingDigests(local)] of package
    [buffer], "the digests present in [this] but not in [local]", with
    membership by [id]. *)
Definition GetMissingDigests (this local : DigestBuffer) : DigestBuffer :=
  {| Digests :=
       filter (fun d => hasDigest (DigestID d) local = false) (Digests this) |}.

(** [Length()] *)
Definition Length (d : DigestBuffer) : nat := length (Digests d).

(** The locally stored message with identifier [id], if there is one. *)
Definition findMessage (id : string) (b : MessageBuffer) : option Message :=
  find (fun x => bool_decide (ID x = id)) (Messages b).

(** Modelled from the spec: [GetMissingMessageBuffer(localMsgBuf)] of
    package [buffer]: "given a digest buffer of wanted items, returns those
    items resolved against the local Message Buffer", dropping "any not
    found locally". *)
Definition GetMissingMessageBuffer (wanted : DigestBuffer) (b : MessageBuffer)
  : MessageBuffer :=
  {| Messages := omap (fun d => findMessage (DigestID d) b) (Digests wanted) |}.

End Buffer.

(* ===================================================================== *)
(** ** Package [callback] *)

Module Callback.

Definition errNilCallbackMap : string := "callback map must not be nil".
Definition errInexistentCustomCallback : string :=
  "callback doesn't exist in the custom registry".
Definition errNotAlowedCallbackType : string := "callback type is not allowed".

(** Modelled from the spec: the error of the default registry's look-up,
    whose declaration is absent from this revision. *)
Definition errInexistentDefaultCallback : string :=
  "callback doesn't exist in the default registry".

(** [CustomRegistry] is a custom callbacks registry. The type [F] of the
    callback functions is [func(interface{}, *log.Logger) error] in the
    registry's own file and [func(interface{}, *log.Logger) (bool, error)]
    where the server calls them. *)
Record CustomRegistry (F : Type) := { callbacks : gomap F }.
Arguments callbacks {F} _.

(** [NewCustomRegistry] creates a custom callback registry. The registry
    pointer is [None] when the function returns [nil] for it. *)
Definition NewCustomRegistry {F : Type} (cb : gomap F)
  : option (CustomRegistry F) * error :=
  match cb with
  | None => (None, Some errNilCallbackMap)
  | Some _ => (Some {| callbacks := cb |}, None)
  end.

(** [GetCallback] returns a custom callback from registry. *)
Definition GetCallback {F : Type} (r : CustomRegistry F) (t : string)
  : option F * error :=
  match mapIndex (callbacks r) t with
  | Some v => (Some v, None)
  | None => (None, Some errInexistentCustomCallback)
  end.

(** How a call of a callback of the registry's own file ends: it returns
    an error (or [nil]), having printed some lines to the logger it was
    given, or it panics. *)
Inductive CallResult :=
| Returns (out : list string) (e : error)
| Panics.

(** A callback of the registry's own file,
    [func(interface{}, *log.Logger) error]. *)
Definition CallbackFn : Type := Payload -> CallResult.

(** A function value as a map holds it: a function, or the nil function
    ([None]), whose call panics. *)
Definition FuncValue : Type := option CallbackFn.

(** [RunCallbacks] runs custom callbacks. The look-up returns the value
    [callbackFn] with an error; without an error [callbackFn] is called,
    and the call of a nil function panics. *)
Definition RunCallbacks (r : CustomRegistry FuncValue)
  (callbackType : string) (msg : Payload) : CallResult :=
  match GetCallback r callbackType with
  | (_, Some _) => Returns [] None
  | (None, None) => Panics
  | (Some None, None) => Panics
  | (Some (Some callbackFn), None) =>
      match callbackFn msg with
      | Returns out (Some e) => Returns out (Some e)
      | Returns out None => Returns out None
      | Panics => Panics
      end
  end.

(** The body of the loop of [ValidateCustomCallbacks], over the entries
    the [range] produces. *)
Fixpoint validateRange {D F : Type} (defaultCallbacks : gmap string D)
  (iter : list (string * F)) : error :=
  match iter with
  | [] => None
  | (customType, _) :: rest =>
      match defaultCallbacks !! customType with
      | Some _ => Some errNotAlowedCallbackType
      | None => validateRange defaultCallbacks rest
      end
  end.

(** [ValidateCustomCallbacks] validates custom callbacks. The package
    variable [defaultCallbacks] is declared in another file of the package
    and is a parameter here; [iter] is the sequence of entries the [range]
    over [customCallbacks] produces. *)
Definition ValidateCustomCallbacks {D F : Type}
  (defaultCallbacks : gmap string D) (iter : list (string * F)) : error :=
  validateRange defaultCallbacks iter.

(** What a callback hands back to the server: the lines it printed to the
    logger, and its [(bool, error)] result. *)
Record Result := { printed : list string; ok : bool; err : error }.

(** A custom callback as the server calls it:
    [callbackFn(m.Msg, cfg.Logger)]. The callbacks of the server's two
    registries are taken to be functions that return: a nil function in a
    table, or a callback that panics, is outside what the server's model
    covers. *)
Definition CustomFn : Type := Payload -> Result.

(** A default callback as the server calls it:
    [callbackFn(m, p, cfg.Logger)], where [p] is the peer buffer or [nil].
    The second component is the content of the peer buffer after the call;
    it is ignored when the callback was handed [nil]. *)
Definition DefaultFn : Type :=
  Buffer.Message -> option Peer.PeerBuffer -> Result * Peer.PeerBuffer.

(** The registry of default callbacks. *)
Record DefaultRegistry := { defaults : gmap string DefaultFn }.

(** Modelled from the spec: [GetCustomCallback] of the custom registry,
    the name under which the server calls the look-up in the table keyed
    by [callback_type]; it is [GetCallback]. *)
Definition GetCustomCallback (r : CustomRegistry CustomFn) (t : string)
  : option CustomFn * error := GetCallback r t.

(** Modelled from the spec: [GetDefaultCallback] of the default registry,
    whose file is absent from this revision; a look-up in the table keyed
    by [callback_type], with an error when the key is not there. *)
Definition GetDefaultCallback (r : DefaultRegistry) (t : string)
  : option DefaultFn * error :=
  match defaults r !! t with
  | Some v => (Some v, None)
  | None => (None, Some errInexistentDefaultCallback)
  end.

(** The constants [NOCALLBACK], [ADDPEER] and [REMOVEPEER] are declared
    in another file of the package; the server is parameterised by them. *)
Record Names := { NOCALLBACK : string; ADDPEER : string; REMOVEPEER : string }.

End Callback.

(* ===================================================================== *)
(** ** Package [httputil] *)

Module Httputil.

(** The part of [*http.Request] the handlers read. *)
Record Request := { Host : string; URLPath : string; Body : string }.

(** The body of a solicitation; [Addr] and [Port] name the node that
    sends it. *)
Record HTTPSolicitation := {
  SolicitationAddr : string;
  SolicitationPort : string;
  SolicitationRoundNumber : Z;
  SolicitationDigests : Buffer.DigestBuffer
}.

(** The body of a synchronization. *)
Record HTTPSynchronization := {
  SynchronizationAddr : string;
  SynchronizationPort : string;
  SynchronizationMessages : Buffer.MessageBuffer
}.

(** A request a handler puts on the wire. *)
Inductive Outbound :=
| Solicitation (msg : HTTPSolicitation) (addr port : string)
| Synchronization (msg : HTTPSynchronization) (addr port : string).

(** The functions of the package the handlers call, as parameters: the
    three decoders of a request body, each with the error it returns, and
    the error (or [nil]) that sending a request yields. *)
Record Transport := {
  ReceiveGossip :
    Request -> Buffer.DigestBuffer * string * string * Z * error;
  ReceiveSolicitation :
    Request -> Buffer.DigestBuffer * string * string * Z * error;
  ReceiveSynchronization :
    Request -> Buffer.MessageBuffer * string * string * error;
  sendError : Outbound -> error
}.

End Httputil.

(* ===================================================================== *)
(** ** Package [server] *)

Module Server.

Import Buffer Callback Httputil.

(** The immutable part of the server's configuration. *)
Record Config := {
  Addr : string;
  Port : string;
  DefaultCallbacks : DefaultRegistry;
  CustomCallbacks : CustomRegistry CustomFn
}.

(** A callback invocation. *)
Inductive Call :=
| DefaultCall (callbackType : string) (m : Message)
| CustomCall (callbackType : string) (msg : Payload).

(** What the configuration points to and the handlers change: the two
    shared buffers, the round counter, the lines written to the logger,
    the requests sent and the callbacks invoked, oldest first. *)
Record Store := {
  MsgBuf : MessageBuffer;
  PeerBuf : Peer.PeerBuffer;
  GossipRound : Z;
  Logger : list string;
  Wire : list Outbound;
  Calls : list Call
}.

(** How a handler ends: it returns, or it panics on an index out of
    range. *)
Inductive Outcome :=
| Returned (st : Store)
| Panicked (st : Store).

Definition finalStore (o : Outcome) : Store :=
  match o with
  | Returned st => st
  | Panicked st => st
  end.

(** [cfg.Logger.Printf(...)], with the line already formatted. *)
Definition Printf (line : string) (st : Store) : Store :=
  {| MsgBuf := MsgBuf st; PeerBuf := PeerBuf st; GossipRound := GossipRound st;
     Logger := Logger st ++ [line]; Wire := Wire st; Calls := Calls st |}.

(** The lines a callback printed to the logger it was given. *)
Definition printAll (lines : list string) (st : Store) : Store :=
  {| MsgBuf := MsgBuf st; PeerBuf := PeerBuf st; GossipRound := GossipRound st;
     Logger := Logger st ++ lines; Wire := Wire st; Calls := Calls st |}.

(** [cfg.MsgBuf.AddMessage(m)] *)
Definition addMessage (m : Message) (st : Store) : Store :=
  {| MsgBuf := AddMessage m (MsgBuf st); PeerBuf := PeerBuf st;
     GossipRound := GossipRound st; Logger := Logger st; Wire := Wire st;
     Calls := Calls st |}.

Definition setPeerBuf (p : Peer.PeerBuffer) (st : Store) : Store :=
  {| MsgBuf := MsgBuf st; PeerBuf := p; GossipRound := GossipRound st;
     Logger := Logger st; Wire := Wire st; Calls := Calls st |}.

Definition called (c : Call) (st : Store) : Store :=
  {| MsgBuf := MsgBuf st; PeerBuf := PeerBuf st; GossipRound := GossipRound st;
     Logger := Logger st; Wire := Wire st; Calls := Calls st ++ [c] |}.

Definition send (o : Outbound) (st : Store) : Store :=
  {| MsgBuf := MsgBuf st; PeerBuf := PeerBuf st; GossipRound := GossipRound st;
     Logger := Logger st; Wire := Wire st ++ [o]; Calls := Calls st |}.

(** ["BMMC %s:%s: Error at calling callback function: %s"] *)
Definition callbackErrorLine (hostAddr hostPort e : string) : string :=
  "BMMC " +:+ hostAddr +:+ ":" +:+ hostPort +:+
  ": Error at calling callback function: " +:+ e.

(** ["BMMC %s:%s synced buffer with message %s in round %d"] *)
Definition syncedLine (hostAddr hostPort id : string) (round : Z) : string :=
  "BMMC " +:+ hostAddr +:+ ":" +:+ hostPort +:+
  " synced buffer with message " +:+ id +:+ " in round " +:+ pretty round.

(** ["BMMC %s:%s Error at receiving synchronization error: %s"] *)
Definition receiveErrorLine (hostAddr hostPort e : string) : string :=
  "BMMC " +:+ hostAddr +:+ ":" +:+ hostPort +:+
  " Error at receiving synchronization error: " +:+ e.

(** The tail shared by the two dispatch functions: the error is logged,
    and the message is added to the buffer only if the callback call
    returned true. *)
Definition afterCallback (r : Result) (m : Message)
  (hostAddr hostPort : string) (st : Store) : Store :=
  let st :=
    match err r with
    | Some e => Printf (callbackErrorLine hostAddr hostPort e) st
    | None => st
    end in
  if ok r
  then
    let st := addMessage m st in
    Printf (syncedLine hostAddr hostPort (ID m) (GossipRound st)) st
  else st.

(** [runCustomCallbacks] runs custom callbacks. *)
Definition runCustomCallbacks (m : Message) (cfg : Config)
  (hostAddr hostPort : string) (st : Store) : Store :=
  match GetCustomCallback (CustomCallbacks cfg) (CallbackType m) with
  | (_, Some _) => st
  | (None, None) => st (* the look-up returns a function or an error *)
  | (Some callbackFn, None) =>
      let r := callbackFn (Msg m) in
      let st := called (CustomCall (CallbackType m) (Msg m)) st in
      let st := printAll (printed r) st in
      afterCallback r m hostAddr hostPort st
  end.

(** The [switch] of [runDefaultCallbacks]: the second argument of the
    callback is the peer buffer for [ADDPEER] and [REMOVEPEER], [nil]
    otherwise. *)
Definition peerTarget (names : Names) (m : Message) (st : Store)
  : option Peer.PeerBuffer :=
  if bool_decide (CallbackType m = ADDPEER names)
  then Some (PeerBuf st)
  else if bool_decide (CallbackType m = REMOVEPEER names)
  then Some (PeerBuf st)
  else None.

(** [runDefaultCallbacks] runs default callbacks. *)
Definition runDefaultCallbacks (names : Names) (m : Message) (cfg : Config)
  (hostAddr hostPort : string) (st : Store) : Store :=
  match GetDefaultCallback (DefaultCallbacks cfg) (CallbackType m) with
  | (_, Some _) => st
  | (None, None) => st (* the look-up returns a function or an error *)
  | (Some callbackFn, None) =>
      let p := peerTarget names m st in
      let '(r, peers) := callbackFn m p in
      let st := called (DefaultCall (CallbackType m) m) st in
      let st := match p with Some _ => setPeerBuf peers st | None => st end in
      let st := printAll (printed r) st in
      afterCallback r m hostAddr hostPort st
  end.

(** The default callback registered for the type of [m], if any. *)
Definition defaultFor (cfg : Config) (m : Message) : option DefaultFn :=
  defaults (DefaultCallbacks cfg) !! CallbackType m.

(** The custom callback registered for the type of [m], if any. *)
Definition customFor (cfg : Config) (m : Message) : option CustomFn :=
  mapIndex (callbacks (CustomCallbacks cfg)) (CallbackType m).

(** The callbacks registered for the type of [m], default first. *)
Definition dispatched (cfg : Config) (m : Message) : list Call :=
  (match defaultFor cfg m with
   | Some _ => [DefaultCall (CallbackType m) m]
   | None => []
   end ++
   match customFor cfg m with
   | Some _ => [CustomCall (CallbackType m) (Msg m)]
   | None => []
   end)%list.

(** The message [m] is accepted: a callback registered for its type
    returns [ok = true] when it is called on [m] in the store [st]. *)
Definition accepted (names : Names) (cfg : Config) (m : Message)
  (st : Store) : Prop :=
  (exists f : DefaultFn, defaultFor cfg m = Some f /\
     ok (f m (peerTarget names m st)).1 = true) \/
  (exists f : CustomFn, customFor cfg m = Some f /\ ok (f (Msg m)) = true).

(** [host := strings.Split(r.Host, ":"); hostAddr := host[0];
    hostPort := host[1]]; [None] when an index is out of range. *)
Definition hostOf (r : Request) : option (string * string) :=
  let host := Strings.Split (Host r) ":" in
  match host !! 0%nat with
  | None => None
  | Some hostAddr =>
      match host !! 1%nat with
      | None => None
      | Some hostPort => Some (hostAddr, hostPort)
      end
  end.

Definition gossipHandler (tr : Transport) (r : Request) (cfg : Config)
  (st : Store) : Outcome :=
  let '(gossipDigestBuffer, tAddr, tPort, tRoundNumber, err) :=
    ReceiveGossip tr r in
  match err with
  | Some e => Returned (Printf e st)
  | None =>
      let msgDigestBuffer := DigestBufferOf (MsgBuf st) in
      let missingDigestBuffer :=
        GetMissingDigests gossipDigestBuffer msgDigestBuffer in
      match hostOf r with
      | None => Panicked st
      | Some (hostAddr, hostPort) =>
          if bool_decide (0 < Length missingDigestBuffer)
          then
            let solicitationMsg :=
              {| SolicitationAddr := hostAddr;
                 SolicitationPort := hostPort;
                 SolicitationRoundNumber := tRoundNumber;
                 SolicitationDigests := missingDigestBuffer |} in
            let out := Solicitation solicitationMsg tAddr tPort in
            let st := send out st in
            match sendError tr out with
            | Some e => Returned (Printf e st)
            | None => Returned st
            end
          else Returned st
      end
  end.

Definition solicitationHandler (tr : Transport) (r : Request) (cfg : Config)
  (st : Store) : Outcome :=
  let '(missingDigestBuffer, tAddr, tPort, _, err) :=
    ReceiveSolicitation tr r in
  match err with
  | Some e => Returned (Printf e st)
  | None =>
      let missingMsgBuffer :=
        GetMissingMessageBuffer missingDigestBuffer (MsgBuf st) in
      match hostOf r with
      | None => Panicked st
      | Some (hostAddr, hostPort) =>
          let synchronizationMsg :=
            {| SynchronizationAddr := hostAddr;
               SynchronizationPort := hostPort;
               SynchronizationMessages := missingMsgBuffer |} in
          let out := Synchronization synchronizationMsg tAddr tPort in
          let st := send out st in
          match sendError tr out with
          | Some e => Returned (Printf e st)
          | None => Returned st
          end
      end
  end.

(** The body of the loop of [synchronizationHandler]. *)
Definition syncMessage (names : Names) (cfg : Config)
  (hostAddr hostPort : string) (st : Store) (m : Message) : Store :=
  if bool_decide (CallbackType m <> NOCALLBACK names)
  then
    let st := runDefaultCallbacks names m cfg hostAddr hostPort st in
    runCustomCallbacks m cfg hostAddr hostPort st
  else
    let st := addMessage m st in
    Printf (syncedLine hostAddr hostPort (ID m) (GossipRound st)) st.

Definition synchronizationHandler (names : Names) (tr : Transport)
  (r : Request) (cfg : Config) (st : Store) : Outcome :=
  match hostOf r with
  | None => Panicked st
  | Some (hostAddr, hostPort) =>
      let '(rcvMsgBuf, _, _, err) := ReceiveSynchronization tr r in
      match err with
      | Some e => Returned (Printf (receiveErrorLine hostAddr hostPort e) st)
      | None =>
          Returned
            (fold_left (syncMessage names cfg hostAddr hostPort)
               (Messages rcvMsgBuf) st)
      end
  end.

(** The three kinds of inbound exchange. *)
Inductive Kind := Gossip | SolicitationKind | SynchronizationKind.

Definition handlerOf (k : Kind) (names : Names) (tr : Transport)
  (r : Request) (cfg : Config) (st : Store) : Outcome :=
  match k with
  | Gossip => gossipHandler tr r cfg st
  | SolicitationKind => solicitationHandler tr r cfg st
  | SynchronizationKind => synchronizationHandler names tr r cfg st
  end.

(** The error the decoder of kind [k] returns on [r]. *)
Definition decodeError (k : Kind) (tr : Transport) (r : Request) : error :=
  match k with
  | Gossip => (ReceiveGossip tr r).2
  | SolicitationKind => (ReceiveSolicitation tr r).2
  | SynchronizationKind => (ReceiveSynchronization tr r).2
  end.

(** The handler function [New] installs: a switch on the path. *)
Definition Handler (names : Names) (tr : Transport) (r : Request)
  (cfg : Config) (st : Store) : Outcome :=
  if bool_decide (URLPath r = "/gossip") then gossipHandler tr r cfg st
  else if bool_decide (URLPath r = "/solicitation")
  then solicitationHandler tr r cfg st
  else if bool_decide (URLPath r = "/synchronization")
  then synchronizationHandler names tr r cfg st
  else Returned st.

(** [http.ErrServerClosed] *)
Definition ErrServerClosed : string := "http: Server closed".

(** [startServer]: [listenAndServe] is what [s.server.ListenAndServe()]
    returned; the result is the error returned and the lines logged. *)
Definition startServer (addr : string) (listenAndServe : error)
  : error * list string :=
  let lines := ["Server listening at " +:+ addr] in
  if bool_decide (listenAndServe <> Some ErrServerClosed)
  then
    (listenAndServe,
     (lines ++
      ["Unable to start  server: " +:+ default "%!s(<nil>)" listenAndServe])%list)
  else (None, lines).

(** The goroutines [Start] launches. *)
Inductive Goroutine :=
| GoStartServer   (* err := startServer(s); errChan <- err *)
| GoShutdownOnStop. (* <-stop; gracefullyShutdown(s) *)

(** What the goroutine [GoStartServer] offers on [errChan]. *)
Definition errChanOffer (addr : string) (listenAndServe : error) : error :=
  (startServer addr listenAndServe).1.

(** [Start]: the value returned, and the goroutines left running. The
    receive [<-errChan] is commented out in the source: nothing reads the
    channel. *)
Definition Start (addr : string) (listenAndServe : error)
  : error * list Goroutine :=
  (None, [GoStartServer; GoShutdownOnStop]).

(** The address [New] gives the HTTP server:
    [fmt.Sprintf("%s:%s", cfg.Addr, cfg.Port)]. *)
Definition listenAddr (cfg : Config) : string :=
  Addr cfg +:+ ":" +:+ Port cfg.

(** [gracefullyShutdown]: [shutdown] is what [s.server.Shutdown] returned;
    the result is the lines logged. *)
Definition gracefullyShutdown (shutdown : error) : list string :=
  match shutdown with
  | Some e => ["Unable to shutdown server properly: " +:+ e]
  | None => []
  end.

End Server.

(* ===================================================================== *)
(** ** Package [bmmc] *)

Module Bmmc.

(** The goroutines of the node. *)
Inductive Goroutine :=
| GoHTTP (g : Server.Goroutine)
| GoGossipServer.

(** [Start] starts the gossip server and the http server. *)
Definition Start (addr : string) (listenAndServe : error)
  : error * list Goroutine :=
  let '(err, gs) := Server.Start addr listenAndServe in
  match err with
  | Some e => (Some e, map GoHTTP gs)
  | None => (None, (map GoHTTP gs ++ [GoGossipServer])%list)
  end.

(** The configuration of a node. The field [Beta], a [float64] handed to
    the gossip server, plays no part in what follows and is left out. *)
Record Config := {
  Addr : string;
  Port : string;
  Peers : list Peer.Peer
}.

(** A node, with the part of the heap its life cycle uses. The field
    [stop] is [nil] ([None]) or one of the channels made so far; a channel
    is open ([false]) or closed ([true]); each goroutine launched is kept
    with the channel it was handed. The HTTP server is handed [b.stop] by
    the call itself; the goroutine of the gossip server reads [b.stop] when
    it begins to run, taken here to be before the next call on the node. *)
Record Node := {
  peerBuffer : list Peer.Peer;
  msgBuffer : Buffer.MessageBuffer;
  listen : string;
  stop : option nat;
  channels : list bool;
  running : list (Goroutine * nat)
}.

(** [New] creates a new instance for the protocol. *)
Definition New (cfg : Config) : Node :=
  {| peerBuffer := Peers cfg;
     msgBuffer := Buffer.NewMessageBuffer;
     listen := Addr cfg +:+ ":" +:+ Port cfg;
     stop := None;
     channels := [];
     running := [] |}.

(** [Start] on a node: [b.stop = make(chan struct{})], then the servers
    are started with that channel. *)
Definition StartNode (listenAndServe : error) (b : Node) : error * Node :=
  let c := length (channels b) in
  let '(err, gs) := Start (listen b) listenAndServe in
  (err,
   {| peerBuffer := peerBuffer b;
      msgBuffer := msgBuffer b;
      listen := listen b;
      stop := Some c;
      channels := (channels b ++ [false])%list;
      running := (running b ++ map (fun g => (g, c)) gs)%list |}).

(** How [Stop] ends: it returns, or [close] panics. *)
Inductive StopOutcome :=
| StopReturned (b : Node)
| StopPanicked.

(** [Stop] stops the gossip server and the http server: [close(b.stop)].
    Closing the nil channel panics, and so does closing a closed channel. *)
Definition Stop (b : Node) : StopOutcome :=
  match stop b with
  | None => StopPanicked
  | Some c =>
      match channels b !! c with
      | Some false =>
          StopReturned
            {| peerBuffer := peerBuffer b;
               msgBuffer := msgBuffer b;
               listen := listen b;
               stop := stop b;
               channels := <[c := true]> (channels b);
               running := running b |}
      | _ => StopPanicked
      end
  end.

(** A call of the node's life cycle. *)
Inductive Op :=
| OpStart (listenAndServe : error)
| OpStop.

(** One call; [None] when it panics. *)
Definition step (op : Op) (b : Node) : option Node :=
  match op with
  | OpStart listenAndServe => Some (StartNode listenAndServe b).2
  | OpStop =>
      match Stop b with
      | StopReturned b' => Some b'
      | StopPanicked => None
      end
  end.

(** A sequence of calls, first to last; [None] when one of them panics. *)
Fixpoint run (ops : list Op) (b : Node) : option Node :=
  match ops with
  | [] => Some b
  | op :: rest =>
      match step op b with
      | Some b' => run rest b'
      | None => None
      end
  end.

(** The goroutine [g], handed the channel [c], has been told to stop: its
    receive [<-stop] can complete. *)
Definition toldToStop (b : Node) (gc : Goroutine * nat) : Prop :=
  channels b !! gc.2 = Some true.

End Bmmc.

(* ===================================================================== *)
(** ** A two-node scenario

    Concrete values on which the properties below are exercised: the
    names of the specification, a node at [localhost:8080] that holds the
    message [m1], and a peer at [10.0.0.2:9000]. *)

Module Scenario.

Import Buffer Callback Httputil Server.

(** Modelled from the spec: the reserved names of the default callbacks,
    [ADDPEER] and [REMOVEPEER], and the sentinel [NONE]. *)
Definition specNames : Names :=
  {| NOCALLBACK := "NONE"; ADDPEER := "ADDPEER"; REMOVEPEER := "REMOVEPEER" |}.

Definition acceptAll : CustomFn :=
  fun _ => {| printed := []; ok := true; err := None |}.

Definition rejectAll : CustomFn :=
  fun _ => {| printed := []; ok := false; err := None |}.

(** Accepts the message and reports an error. *)
Definition acceptWithError : CustomFn :=
  fun _ => {| printed := []; ok := true; err := Some "disk full" |}.

(** A table with the two reserved names. *)
Definition reservedTable : gmap string unit :=
  <["ADDPEER" := tt]> (<["REMOVEPEER" := tt]> ∅).

(** [ADDPEER]: the payload is the address of the peer; the callback adds
    it to the peer buffer it is given. *)
Definition addPeer : DefaultFn :=
  fun m p =>
    match p with
    | Some peers =>
        ({| printed := []; ok := true; err := None |},
         (peers ++ [{| Peer.Addr := Msg m; Peer.Port := "9000" |}])%list)
    | None =>
        ({| printed := []; ok := false; err := Some "no peer buffer" |}, [])
    end.

Definition m1 : Message :=
  {| ID := "m1"; Msg := "hello"; CallbackType := "NONE"; GossipCount := 0 |}.

Definition m2 : Message :=
  {| ID := "m2"; Msg := "paper"; CallbackType := "review"; GossipCount := 0 |}.

Definition m3 : Message :=
  {| ID := "m3"; Msg := "unknown"; CallbackType := "audit"; GossipCount := 0 |}.

Definition cfg : Config :=
  {| Addr := "localhost"; Port := "8080";
     DefaultCallbacks := {| defaults := <["ADDPEER" := addPeer]> ∅ |};
     CustomCallbacks :=
       {| callbacks := Some (<["review" := acceptWithError]> ∅) |} |}.

(** A decoder fails on the empty body. On any other body the gossip
    carries the digests of [m1] and [m2], the solicitation asks for [m1]
    and [m3], and the synchronization brings [m1], [m2] and [m3]; the
    sender is [10.0.0.2:9000], in round 7. *)
Definition transport : Transport :=
  {| ReceiveGossip := fun r =>
       if bool_decide (Body r = "")
       then ({| Digests := [] |}, "", "", 0%Z, Some "EOF")
       else ({| Digests := [digestOf m1; digestOf m2] |},
             "10.0.0.2", "9000", 7%Z, None);
     ReceiveSolicitation := fun r =>
       if bool_decide (Body r = "")
       then ({| Digests := [] |}, "", "", 0%Z, Some "EOF")
       else ({| Digests := [digestOf m1; digestOf m3] |},
             "10.0.0.2", "9000", 7%Z, None);
     ReceiveSynchronization := fun r =>
       if bool_decide (Body r = "")
       then ({| Messages := [] |}, "", "", Some "EOF")
       else ({| Messages := [m1; m2; m3] |}, "10.0.0.2", "9000", None);
     sendError := fun _ => None |}.

(** The node holds [m1] and knows no peer. *)
Definition store : Store :=
  {| MsgBuf := {| Messages := [m1] |}; PeerBuf := []; GossipRound := 3%Z;
     Logger := []; Wire := []; Calls := [] |}.

Definition emptyStore : Store :=
  {| MsgBuf := NewMessageBuffer; PeerBuf := []; GossipRound := 3%Z;
     Logger := []; Wire := []; Calls := [] |}.

Definition request (path body : string) : Request :=
  {| Host := "localhost:8080"; URLPath := path; Body := body |}.

(** A request whose [Host] header names no port. *)
Definition requestNoPort (path body : string) : Request :=
  {| Host := "localhost"; URLPath := path; Body := body |}.

(** A message without callback that the node does not hold. *)
Definition m4 : Message :=
  {| ID := "m4"; Msg := "world"; CallbackType := "NONE"; GossipCount := 0 |}.

(** A decoder of synchronizations that reads the body ["1"] as [m1], the
    body ["2"] as [m4] and any other body as [m1] followed by [m4]. *)
Definition transportByBody : Transport :=
  {| ReceiveGossip := ReceiveGossip transport;
     ReceiveSolicitation := ReceiveSolicitation transport;
     ReceiveSynchronization := fun r =>
       if bool_decide (Body r = "1")
       then ({| Messages := [m1] |}, "10.0.0.2", "9000", None)
       else if bool_decide (Body r = "2")
       then ({| Messages := [m4] |}, "10.0.0.2", "9000", None)
       else ({| Messages := [m1; m4] |}, "10.0.0.2", "9000", None);
     sendError := fun _ => Some "connection refused" |}.

(** A callback of the registry's own kind: it prints a line and fails. *)
Definition failing : CallbackFn :=
  fun msg => Returns ["got " +:+ msg] (Some "rejected").

(** A callback that panics. *)
Definition panicking : CallbackFn := fun _ => Panics.

(** A map of callbacks with a nil function under the key ["nil"]. *)
Definition callbackMap : gmap string FuncValue :=
  <["log" := Some failing]> (<["boom" := Some panicking]> (<["nil" := None]> ∅)).

(** The configuration of a node that knows one peer. *)
Definition nodeCfg : Bmmc.Config :=
  {| Bmmc.Addr := "localhost"; Bmmc.Port := "8080";
     Bmmc.Peers := [{| Peer.Addr := "10.0.0.2"; Peer.Port := "9000" |}] |}.

End Scenario.

(* ===================================================================== *)
(** * Properties *)

(** ** [strings.Split] on the separator [":"] *)

Section SplitColon.

Import Strings.

Lemma prefix_empty (s : string) : String.prefix "" s = true.
Proof. by destruct s. Qed.

Lemma string_app_cons (c : ascii) (a b : string) :
  String c a +:+ b = String c (a +:+ b).
Proof. reflexivity. Qed.

Lemma string_app_empty_r (s : string) : s +:+ "" = s.
Proof. induction s as [|c s IH]; [done|]. by rewrite string_app_cons, IH. Qed.

Lemma string_app_assoc (a b c : string) : (a +:+ b) +:+ c = a +:+ (b +:+ c).
Proof. induction a as [|x a IH]; [done|]. by rewrite !string_app_cons, IH. Qed.

Lemma splitFrom_colon_length (s cur : string) :
  length (splitFrom ":" 0 cur s) = S (countChar ":"%char s).
Proof.
  revert cur. induction s as [|c s IH]; intros cur; [reflexivity|].
  cbn [splitFrom countChar String.prefix String.length Nat.sub].
  destruct (Ascii.ascii_dec ":"%char c) as [<-|Hne].
  - rewrite bool_decide_eq_true_2 by reflexivity.
    rewrite prefix_empty. cbn [length]. rewrite IH. reflexivity.
  - rewrite bool_decide_eq_false_2 by congruence. apply IH.
Qed.

Lemma Split_colon_length (s : string) :
  length (Split s ":") = S (countChar ":"%char s).
Proof. apply splitFrom_colon_length. Qed.

Lemma splitFrom_colon_no_colon (s cur : string) :
  countChar ":"%char s = 0 -> splitFrom ":" 0 cur s = [cur +:+ s].
Proof.
  revert cur. induction s as [|c s IH]; intros cur Hc.
  - cbn. by rewrite string_app_empty_r.
  - cbn [countChar] in Hc.
    cbn [splitFrom String.prefix].
    destruct (Ascii.ascii_dec ":"%char c) as [<-|Hne].
    + rewrite bool_decide_eq_true_2 in Hc by reflexivity. lia.
    + rewrite bool_decide_eq_false_2 in Hc by congruence.
      rewrite IH by lia. by rewrite string_app_assoc.
Qed.

Lemma splitFrom_colon_app (a rest cur : string) :
  countChar ":"%char a = 0 ->
  splitFrom ":" 0 cur (a +:+ String ":"%char rest)
  = (cur +:+ a) :: splitFrom ":" 0 "" rest.
Proof.
  revert cur. induction a as [|c a IH]; intros cur Hc.
  - cbn. rewrite string_app_empty_r. by destruct rest.
  - cbn [countChar] in Hc. rewrite string_app_cons.
    cbn [splitFrom String.prefix].
    destruct (Ascii.ascii_dec ":"%char c) as [<-|Hne].
    + rewrite bool_decide_eq_true_2 in Hc by reflexivity. lia.
    + rewrite bool_decide_eq_false_2 in Hc by congruence.
      rewrite IH by lia. by rewrite string_app_assoc.
Qed.

Lemma Split_addr_port (addr port : string) :
  countChar ":"%char addr = 0 -> countChar ":"%char port = 0 ->
  Split (addr +:+ String ":"%char port) ":" = [addr; port].
Proof.
  intros Ha Hp. unfold Split.
  rewrite splitFrom_colon_app by done.
  rewrite splitFrom_colon_no_colon by done. reflexivity.
Qed.

Example Split_three : Split "a:b:c" ":" = ["a"; "b"; "c"].
Proof. reflexivity. Qed.

Example Split_no_separator : Split "localhost" ":" = ["localhost"].
Proof. reflexivity. Qed.

Example Split_empty : Split "" ":" = [""].
Proof. reflexivity. Qed.

Example Split_trailing : Split "localhost:" ":" = ["localhost"; ""].
Proof. reflexivity. Qed.

Example Split_long_separator : Split "a, b, c" ", " = ["a"; "b"; "c"].
Proof. reflexivity. Qed.

End SplitColon.

Lemma hostOf_None_iff (r : Httputil.Request) :
  Server.hostOf r = None <->
  Strings.ContainsChar (Httputil.Host r) ":"%char = false.
Proof.
  unfold Server.hostOf, Strings.ContainsChar.
  pose proof (Split_colon_length (Httputil.Host r)) as Hlen.
  destruct (Strings.Split (Httputil.Host r) ":") as [|a [|b l]];
    cbn in Hlen |- *.
  - lia.
  - rewrite bool_decide_eq_false. split; [lia | done].
  - rewrite bool_decide_eq_false. split; [done | lia].
Qed.

Lemma hostOf_addr_port (r : Httputil.Request) (addr port : string) :
  Strings.countChar ":"%char addr = 0 -> Strings.countChar ":"%char port = 0 ->
  Httputil.Host r = addr +:+ String ":"%char port ->
  Server.hostOf r = Some (addr, port).
Proof.
  intros Ha Hp Hr. unfold Server.hostOf.
  rewrite Hr, Split_addr_port by done. reflexivity.
Qed.

(** ** The custom callback registry *)

Section Registry.

Import Callback.

Context {D F : Type}.

Lemma validateRange_error (defaultCallbacks : gmap string D)
  (iter : list (string * F)) :
  validateRange defaultCallbacks iter = Some errNotAlowedCallbackType <->
  exists t v, (t, v) ∈ iter /\ is_Some (defaultCallbacks !! t).
Proof.
  induction iter as [|[t v] rest IH]; cbn [validateRange].
  - split; [done|]. intros (t & v & Hin & _). by apply elem_of_nil in Hin.
  - destruct (defaultCallbacks !! t) as [d|] eqn:Hd.
    + split; [|done]. intros _. exists t, v. split; [left|by rewrite Hd].
    + rewrite IH. split.
      * intros (t' & v' & Hin & Hs). exists t', v'. split; [by right|done].
      * intros (t' & v' & Hin & Hs). apply elem_of_cons in Hin as [Heq|Hin].
        -- injection Heq as -> ->. rewrite Hd in Hs. by destruct Hs.
        -- by exists t', v'.
Qed.

Lemma validateRange_cases (defaultCallbacks : gmap string D)
  (iter : list (string * F)) :
  validateRange defaultCallbacks iter = None \/
  validateRange defaultCallbacks iter = Some errNotAlowedCallbackType.
Proof.
  induction iter as [|[t v] rest IH]; cbn [validateRange]; [by left|].
  destruct (defaultCallbacks !! t); [by right | exact IH].
Qed.

Lemma RangeOf_elem (customCallbacks : gomap F) (iter : list (string * F))
  (t : string) (v : F) :
  RangeOf customCallbacks iter ->
  (t, v) ∈ iter <-> mapIndex customCallbacks t = Some v.
Proof.
  destruct customCallbacks as [g|]; cbn [RangeOf mapIndex].
  - intros Hp. rewrite Hp. apply elem_of_map_to_list.
  - intros ->. split; [intros H; by apply elem_of_nil in H | done].
Qed.

End Registry.

(** C9. [NewCustomRegistry(cb)] returns an error, and no registry, exactly
    when the map [cb] is nil. For a map that is not nil it returns a
    registry whose [GetCallback(t)] yields the function stored at key [t],
    with an error if and only if [t] is not a key of the map. *)
Theorem NewCustomRegistry_GetCallback (F : Type) (cb : gomap F) :
  ((Callback.NewCustomRegistry cb).2 <> None <-> cb = None) /\
  ((Callback.NewCustomRegistry cb).1 = None <-> cb = None) /\
  forall g : gmap string F, cb = Some g ->
    exists r, Callback.NewCustomRegistry cb = (Some r, None) /\
      forall t : string,
        (Callback.GetCallback r t).1 = g !! t /\
        ((Callback.GetCallback r t).2 <> None <-> g !! t = None).
Proof.
  destruct cb as [g|]; cbn.
  - split; [split; [congruence | done]|].
    split; [split; done|].
    intros g' [= <-]. eexists. split; [reflexivity|].
    intros t. unfold Callback.GetCallback. cbn.
    destruct (g !! t); cbn; split; try done; split; congruence.
  - split; [split; [done | congruence]|].
    split; [split; done|]. intros g [=].
Qed.

(** C7. Whatever the order in which the custom callbacks are ranged over,
    the validation fails with [errNotAlowedCallbackType] if and only if
    some custom callback type is a key of the default callbacks, and
    returns [nil] if and only if none is. *)
Theorem ValidateCustomCallbacks_collision (D F : Type)
  (defaultCallbacks : gmap string D) (customCallbacks : gomap F)
  (iter : list (string * F)) :
  RangeOf customCallbacks iter ->
  (Callback.ValidateCustomCallbacks defaultCallbacks iter
     = Some Callback.errNotAlowedCallbackType <->
   exists t, is_Some (mapIndex customCallbacks t) /\
             is_Some (defaultCallbacks !! t)) /\
  (Callback.ValidateCustomCallbacks defaultCallbacks iter = None <->
   forall t, is_Some (mapIndex customCallbacks t) ->
             defaultCallbacks !! t = None).
Proof.
  intros Hrange. unfold Callback.ValidateCustomCallbacks.
  assert (Herr :
    Callback.validateRange defaultCallbacks iter
      = Some Callback.errNotAlowedCallbackType <->
    exists t, is_Some (mapIndex customCallbacks t) /\
              is_Some (defaultCallbacks !! t)).
  { rewrite validateRange_error. split.
    - intros (t & v & Hin & Hs). exists t. split; [|done].
      exists v. by apply (RangeOf_elem customCallbacks iter).
    - intros (t & [v Hv] & Hs). exists t, v. split; [|done].
      by apply (RangeOf_elem customCallbacks iter). }
  split; [exact Herr|].
  destruct (validateRange_cases defaultCallbacks iter) as [Hn|He].
  - split; [|done]. intros _ t Ht.
    destruct (defaultCallbacks !! t) eqn:Hd; [|done].
    assert (Callback.validateRange defaultCallbacks iter
              = Some Callback.errNotAlowedCallbackType) as Hc.
    { apply Herr. exists t. split; [done | by rewrite Hd]. }
    congruence.
  - split; [congruence|]. intros Hall.
    apply Herr in He as (t & Ht & [d Hd]). rewrite (Hall t Ht) in Hd. done.
Qed.

Lemma ValidateCustomCallbacks_collision_witness :
  Callback.ValidateCustomCallbacks Scenario.reservedTable
    [("ADDPEER", Scenario.acceptAll)]
    = Some Callback.errNotAlowedCallbackType.
Proof.
  apply (ValidateCustomCallbacks_collision unit Callback.CustomFn
           Scenario.reservedTable
           (Some (<["ADDPEER" := Scenario.acceptAll]> ∅))
           [("ADDPEER", Scenario.acceptAll)]).
  - cbn. by rewrite insert_empty, map_to_list_singleton.
  - exists "ADDPEER". split; cbn.
    + rewrite lookup_insert_eq. by eexists.
    + unfold Scenario.reservedTable. rewrite lookup_insert_eq. by eexists.
Defined.

(** ** The buffers *)

Section Buffers.

Import Buffer.

Lemma hasID_true (id : string) (b : MessageBuffer) :
  hasID id b = true <-> exists x, x ∈ Messages b /\ ID x = id.
Proof.
  unfold hasID. rewrite existsb_exists. split.
  - intros (x & Hin & Hx). exists x. split; [by apply list_elem_of_In|].
    by apply bool_decide_eq_true in Hx.
  - intros (x & Hin & Hx). exists x. split; [by apply list_elem_of_In|].
    by apply bool_decide_eq_true.
Qed.

Lemma hasID_false (id : string) (b : MessageBuffer) :
  hasID id b = false <-> forall x, x ∈ Messages b -> ID x <> id.
Proof.
  rewrite <- not_true_iff_false, hasID_true. split.
  - intros Hn x Hin Hx. apply Hn. by exists x.
  - intros Hall (x & Hin & Hx). by apply (Hall x).
Qed.

Lemma AddMessage_hasID (m : Message) (b : MessageBuffer) :
  hasID (ID m) (AddMessage m b) = true.
Proof.
  unfold AddMessage. destruct (hasID (ID m) b) eqn:Hb; [done|].
  apply hasID_true. exists m. split; [|done].
  cbn. apply elem_of_app. right. apply list_elem_of_singleton. done.
Qed.

Lemma AddMessage_idempotent (m : Message) (b : MessageBuffer) :
  AddMessage m (AddMessage m b) = AddMessage m b.
Proof.
  unfold AddMessage at 1. by rewrite AddMessage_hasID.
Qed.

Lemma hasDigest_true (id : string) (d : DigestBuffer) :
  hasDigest id d = true <-> exists x, x ∈ Digests d /\ DigestID x = id.
Proof.
  unfold hasDigest. rewrite existsb_exists. split.
  - intros (x & Hin & Hx). exists x. split; [by apply list_elem_of_In|].
    by apply bool_decide_eq_true in Hx.
  - intros (x & Hin & Hx). exists x. split; [by apply list_elem_of_In|].
    by apply bool_decide_eq_true.
Qed.

Lemma elem_of_GetMissingDigests (this local : DigestBuffer) (d : Digest) :
  d ∈ Digests (GetMissingDigests this local) <->
  d ∈ Digests this /\
  forall x, x ∈ Digests local -> DigestID x <> DigestID d.
Proof.
  unfold GetMissingDigests. cbn [Digests]. rewrite list_elem_of_filter.
  rewrite <- not_true_iff_false, hasDigest_true. split.
  - intros [Hn Hin]. split; [done|]. intros x Hx Heq. apply Hn. by exists x.
  - intros [Hin Hall]. split; [|done]. intros (x & Hx & Heq).
    by apply (Hall x).
Qed.

Lemma findMessage_Some (id : string) (b : MessageBuffer) (m : Message) :
  findMessage id b = Some m -> m ∈ Messages b /\ ID m = id.
Proof.
  unfold findMessage. intros H. apply find_some in H as [Hin Hm].
  split; [by apply list_elem_of_In | by apply bool_decide_eq_true in Hm].
Qed.

Lemma findMessage_None (id : string) (b : MessageBuffer) :
  findMessage id b = None <-> forall x, x ∈ Messages b -> ID x <> id.
Proof.
  unfold findMessage. split.
  - intros H x Hin Hx. apply list_elem_of_In in Hin.
    pose proof (find_none _ _ H x Hin) as Hf. cbn in Hf.
    by apply bool_decide_eq_false in Hf.
  - intros Hall. destruct (find _ _) as [m|] eqn:Hf; [|done].
    apply find_some in Hf as [Hin Hm]. apply bool_decide_eq_true in Hm.
    apply list_elem_of_In in Hin. by destruct (Hall m Hin).
Qed.

Lemma elem_of_GetMissingMessageBuffer (wanted : DigestBuffer)
  (b : MessageBuffer) (m : Message) :
  m ∈ Messages (GetMissingMessageBuffer wanted b) <->
  exists d, d ∈ Digests wanted /\ findMessage (DigestID d) b = Some m.
Proof.
  unfold GetMissingMessageBuffer. cbn [Messages]. apply list_elem_of_omap.
Qed.

Lemma findMessage_is_Some (id : string) (b : MessageBuffer) (x : Message) :
  x ∈ Messages b -> ID x = id ->
  exists m, findMessage id b = Some m /\ m ∈ Messages b /\ ID m = id.
Proof.
  intros Hx Hid. destruct (findMessage id b) as [m|] eqn:Hf.
  - exists m. split; [done|]. by apply findMessage_Some.
  - exfalso. by apply (proj1 (findMessage_None id b) Hf x).
Qed.

Lemma NoDup_ID_inj (l : list Message) (x y : Message) :
  NoDup (map ID l) -> x ∈ l -> y ∈ l -> ID x = ID y -> x = y.
Proof.
  induction l as [|a l IH]; intros Hnd Hx Hy Hid.
  - by apply elem_of_nil in Hx.
  - cbn in Hnd. apply NoDup_cons in Hnd as [Hnotin Hnd].
    apply elem_of_cons in Hx as [->|Hx]; apply elem_of_cons in Hy as [->|Hy].
    + done.
    + exfalso. apply Hnotin. rewrite Hid.
      apply (list_elem_of_fmap_2 ID). exact Hy.
    + exfalso. apply Hnotin. rewrite <- Hid.
      apply (list_elem_of_fmap_2 ID). exact Hx.
    + by apply IH.
Qed.

Lemma findMessage_unique (b : MessageBuffer) (m : Message) :
  NoDup (map ID (Messages b)) -> m ∈ Messages b ->
  findMessage (ID m) b = Some m.
Proof.
  intros Hnd Hm.
  destruct (findMessage_is_Some (ID m) b m Hm eq_refl) as (m' & -> & Hm' & Hid).
  f_equal. by apply (NoDup_ID_inj (Messages b)).
Qed.

Lemma GetMissingMessageBuffer_length (wanted : DigestBuffer)
  (b : MessageBuffer) :
  length (Messages (GetMissingMessageBuffer wanted b))
  <= length (Digests wanted).
Proof.
  unfold GetMissingMessageBuffer. cbn [Messages].
  induction (Digests wanted) as [|d ds IH]; cbn; [lia|].
  destruct (findMessage (DigestID d) b); cbn; lia.
Qed.

End Buffers.

(** ** Callback dispatch *)

Section Dispatch.

Import Buffer Callback Httputil Server.

Variable names : Names.
Variable cfg : Config.
Variables hostAddr hostPort : string.

Local Abbreviation defaultFor := (Server.defaultFor cfg).
Local Abbreviation customFor := (Server.customFor cfg).
Local Abbreviation accepted := (Server.accepted names cfg).

Lemma afterCallback_MsgBuf (r : Result) (m : Message) (st : Store) :
  MsgBuf (afterCallback r m hostAddr hostPort st)
  = if ok r then AddMessage m (MsgBuf st) else MsgBuf st.
Proof. unfold afterCallback. by destruct (err r), (ok r). Qed.

Lemma afterCallback_frame (r : Result) (m : Message) (st : Store) :
  let st' := afterCallback r m hostAddr hostPort st in
  PeerBuf st' = PeerBuf st /\ Wire st' = Wire st /\ Calls st' = Calls st /\
  GossipRound st' = GossipRound st.
Proof. unfold afterCallback. by destruct (err r), (ok r). Qed.

Lemma afterCallback_logs_error (r : Result) (m : Message) (st : Store)
  (e : string) :
  err r = Some e ->
  callbackErrorLine hostAddr hostPort e
    ∈ Logger (afterCallback r m hostAddr hostPort st).
Proof.
  intros He. unfold afterCallback. rewrite He.
  destruct (ok r); cbn; rewrite ?elem_of_app, ?list_elem_of_singleton; auto.
Qed.

Lemma runCustomCallbacks_unmatched (m : Message) (st : Store) :
  customFor m = None -> runCustomCallbacks m cfg hostAddr hostPort st = st.
Proof.
  unfold Server.customFor, runCustomCallbacks, GetCustomCallback, GetCallback.
  by intros ->.
Qed.

Lemma runCustomCallbacks_matched (m : Message) (st : Store) (f : CustomFn) :
  customFor m = Some f ->
  runCustomCallbacks m cfg hostAddr hostPort st
  = afterCallback (f (Msg m)) m hostAddr hostPort
      (printAll (printed (f (Msg m)))
         (called (CustomCall (CallbackType m) (Msg m)) st)).
Proof.
  unfold Server.customFor, runCustomCallbacks, GetCustomCallback, GetCallback.
  by intros ->.
Qed.

Lemma runDefaultCallbacks_unmatched (m : Message) (st : Store) :
  defaultFor m = None ->
  runDefaultCallbacks names m cfg hostAddr hostPort st = st.
Proof.
  unfold Server.defaultFor, runDefaultCallbacks, GetDefaultCallback. by intros ->.
Qed.

Lemma runDefaultCallbacks_MsgBuf (m : Message) (st : Store) (f : DefaultFn) :
  defaultFor m = Some f ->
  MsgBuf (runDefaultCallbacks names m cfg hostAddr hostPort st)
  = if ok (f m (peerTarget names m st)).1
    then AddMessage m (MsgBuf st) else MsgBuf st.
Proof.
  unfold Server.defaultFor, runDefaultCallbacks, GetDefaultCallback. intros ->.
  destruct (f m (peerTarget names m st)) as [r peers]. cbn [fst].
  rewrite afterCallback_MsgBuf. by destruct (peerTarget names m st).
Qed.

Lemma runDefaultCallbacks_Calls (m : Message) (st : Store) (f : DefaultFn) :
  defaultFor m = Some f ->
  Calls (runDefaultCallbacks names m cfg hostAddr hostPort st)
  = (Calls st ++ [DefaultCall (CallbackType m) m])%list.
Proof.
  unfold Server.defaultFor, runDefaultCallbacks, GetDefaultCallback. intros ->.
  destruct (f m (peerTarget names m st)) as [r peers].
  match goal with
  | |- Calls (afterCallback ?r ?m ?a ?p ?s) = _ =>
      destruct (afterCallback_frame r m s) as (_ & _ & -> & _)
  end.
  by destruct (peerTarget names m st).
Qed.

Lemma runDefaultCallbacks_logs_error (m : Message) (st : Store)
  (f : DefaultFn) (e : string) :
  defaultFor m = Some f ->
  err (f m (peerTarget names m st)).1 = Some e ->
  callbackErrorLine hostAddr hostPort e
    ∈ Logger (runDefaultCallbacks names m cfg hostAddr hostPort st).
Proof.
  unfold Server.defaultFor, runDefaultCallbacks, GetDefaultCallback. intros ->.
  destruct (f m (peerTarget names m st)) as [r peers]. cbn [fst].
  apply afterCallback_logs_error.
Qed.

(** C3. When the callback registered for the type of [m] returns
    [(ok, err)], the message buffer after the dispatch is the buffer with
    [AddMessage(m)] applied if [ok] is true and the buffer as it was if [ok]
    is false, whatever [err] is; an error that is not [nil] is written to
    the log. This holds for the default and for the custom callbacks. *)
Theorem insertion_depends_only_on_ok (m : Message) (st : Store) :
  (forall f : DefaultFn, defaultFor m = Some f ->
     let r := (f m (peerTarget names m st)).1 in
     MsgBuf (runDefaultCallbacks names m cfg hostAddr hostPort st)
       = (if ok r then AddMessage m (MsgBuf st) else MsgBuf st) /\
     forall e, err r = Some e ->
       callbackErrorLine hostAddr hostPort e
         ∈ Logger (runDefaultCallbacks names m cfg hostAddr hostPort st)) /\
  (forall f : CustomFn, customFor m = Some f ->
     let r := f (Msg m) in
     MsgBuf (runCustomCallbacks m cfg hostAddr hostPort st)
       = (if ok r then AddMessage m (MsgBuf st) else MsgBuf st) /\
     forall e, err r = Some e ->
       callbackErrorLine hostAddr hostPort e
         ∈ Logger (runCustomCallbacks m cfg hostAddr hostPort st)).
Proof.
  split.
  - intros f Hf r. split.
    + by apply runDefaultCallbacks_MsgBuf.
    + intros e He. by apply (runDefaultCallbacks_logs_error m st f).
  - intros f Hf r. rewrite (runCustomCallbacks_matched m st f Hf). split.
    + by rewrite afterCallback_MsgBuf.
    + intros e He. by apply afterCallback_logs_error.
Qed.

(** C6. A message whose callback type is not the sentinel and is
    registered in neither table leaves the store as it was: no callback
    is invoked, nothing is logged or sent, and the message buffer and the
    peer buffer are unchanged. *)
Theorem unregistered_type_leaves_store (m : Message) (st : Store) :
  CallbackType m <> NOCALLBACK names ->
  defaultFor m = None ->
  customFor m = None ->
  syncMessage names cfg hostAddr hostPort st m = st.
Proof.
  intros Hne Hd Hc. unfold syncMessage.
  rewrite bool_decide_eq_true_2 by done.
  rewrite runDefaultCallbacks_unmatched by done.
  by apply runCustomCallbacks_unmatched.
Qed.

Lemma syncMessage_sentinel (m : Message) (st : Store) :
  CallbackType m = NOCALLBACK names ->
  MsgBuf (syncMessage names cfg hostAddr hostPort st m)
  = AddMessage m (MsgBuf st) /\
  Calls (syncMessage names cfg hostAddr hostPort st m) = Calls st.
Proof.
  intros He. unfold syncMessage.
  rewrite bool_decide_eq_false_2 by (intros Hn; by apply Hn). done.
Qed.

Lemma syncMessage_dispatch_MsgBuf (m : Message) (st : Store) :
  CallbackType m <> NOCALLBACK names ->
  (accepted m st ->
   MsgBuf (syncMessage names cfg hostAddr hostPort st m)
   = AddMessage m (MsgBuf st)) /\
  (~ accepted m st ->
   MsgBuf (syncMessage names cfg hostAddr hostPort st m) = MsgBuf st).
Proof.
  intros Hne. unfold syncMessage, Server.accepted.
  rewrite bool_decide_eq_true_2 by done.
  set (st1 := runDefaultCallbacks names m cfg hostAddr hostPort st).
  assert (Hd : MsgBuf st1 =
    match defaultFor m with
    | Some f => if ok (f m (peerTarget names m st)).1
                then AddMessage m (MsgBuf st) else MsgBuf st
    | None => MsgBuf st
    end).
  { subst st1. destruct (defaultFor m) as [f|] eqn:Hf.
    - by apply runDefaultCallbacks_MsgBuf.
    - by rewrite runDefaultCallbacks_unmatched. }
  assert (Hc : MsgBuf (runCustomCallbacks m cfg hostAddr hostPort st1) =
    match customFor m with
    | Some f => if ok (f (Msg m))
                then AddMessage m (MsgBuf st1) else MsgBuf st1
    | None => MsgBuf st1
    end).
  { destruct (customFor m) as [f|] eqn:Hf.
    - rewrite (runCustomCallbacks_matched m st1 f Hf).
      by rewrite afterCallback_MsgBuf.
    - by rewrite runCustomCallbacks_unmatched. }
  rewrite Hc, Hd. clear Hc Hd st1.
  destruct (defaultFor m) as [fd|], (customFor m) as [fc|];
    try destruct (ok (fd m (peerTarget names m st)).1) eqn:Hokd;
    try destruct (ok (fc (Msg m))) eqn:Hokc;
    rewrite ?AddMessage_idempotent;
    (split; [intros Hacc | intros Hnot]); try reflexivity;
    try (exfalso; apply Hnot; eauto; fail);
    try (destruct Hacc as [(f & Hf & Hok)|(f & Hf & Hok)];
         simplify_eq; congruence).
Qed.

Lemma syncMessage_dispatch_Calls (m : Message) (st : Store) :
  CallbackType m <> NOCALLBACK names ->
  Calls (syncMessage names cfg hostAddr hostPort st m)
  = (Calls st ++ dispatched cfg m)%list.
Proof.
  intros Hne. unfold syncMessage, dispatched.
  rewrite bool_decide_eq_true_2 by done.
  set (st1 := runDefaultCallbacks names m cfg hostAddr hostPort st).
  assert (Hd : Calls st1 =
    (Calls st ++ match defaultFor m with
                 | Some _ => [DefaultCall (CallbackType m) m]
                 | None => []
                 end)%list).
  { subst st1. destruct (defaultFor m) as [f|] eqn:Hf.
    - by apply (runDefaultCallbacks_Calls m st f).
    - rewrite runDefaultCallbacks_unmatched by done. by rewrite app_nil_r. }
  destruct (customFor m) as [f|] eqn:Hf.
  - rewrite (runCustomCallbacks_matched m st1 f Hf).
    match goal with
    | |- Calls (afterCallback ?r ?m ?a ?p ?s) = _ =>
        destruct (afterCallback_frame r m s) as (_ & _ & -> & _)
    end.
    cbn [Calls printAll called]. rewrite Hd. by rewrite <- (assoc_L app).
  - rewrite runCustomCallbacks_unmatched by done.
    rewrite Hd. by rewrite app_nil_r.
Qed.

End Dispatch.

(** ** The three handlers *)

Section Handlers.

Import Buffer Callback Httputil Server.

Variable names : Names.
Variable tr : Transport.
Variable cfg : Config.


(** C4. A gossip that decodes, on a request whose [Host] has an address
    and a port: the missing digests are those of the sender that no local
    digest matches by id; if there is one, a single solicitation with the
    sender's round number and the missing digests is sent to the sender's
    address and port, and if there is none nothing is sent. The buffers
    are unchanged. *)
Theorem gossip_solicits_missing (r : Request) (st : Store)
  (gossipDigestBuffer : DigestBuffer) (tAddr tPort hostAddr hostPort : string)
  (tRoundNumber : Z) :
  ReceiveGossip tr r = (gossipDigestBuffer, tAddr, tPort, tRoundNumber, None) ->
  hostOf r = Some (hostAddr, hostPort) ->
  let missing :=
    GetMissingDigests gossipDigestBuffer (DigestBufferOf (MsgBuf st)) in
  (forall d, d ∈ Digests missing <->
     d ∈ Digests gossipDigestBuffer /\
     forall x, x ∈ Digests (DigestBufferOf (MsgBuf st)) ->
               DigestID x <> DigestID d) /\
  exists st', gossipHandler tr r cfg st = Returned st' /\
    MsgBuf st' = MsgBuf st /\ PeerBuf st' = PeerBuf st /\
    (Digests missing <> [] ->
       Wire st' =
       (Wire st ++
        [Solicitation
           {| SolicitationAddr := hostAddr;
              SolicitationPort := hostPort;
              SolicitationRoundNumber := tRoundNumber;
              SolicitationDigests := missing |} tAddr tPort])%list) /\
    (Digests missing = [] -> Wire st' = Wire st).
Proof.
  intros Hrecv Hhost missing. split.
  - intros d. apply elem_of_GetMissingDigests.
  - unfold gossipHandler. rewrite Hrecv, Hhost. fold missing.
    unfold Length. destruct (Digests missing) as [|d ds] eqn:Hm.
    + rewrite bool_decide_eq_false_2 by (cbn; lia).
      eexists. split; [reflexivity|]. done.
    + rewrite bool_decide_eq_true_2 by (cbn; lia).
      destruct (sendError tr _); eexists; (split; [reflexivity|]); cbn;
        repeat split; try done.
Qed.

(** C5. A solicitation that decodes, on a request whose [Host] has an
    address and a port: every message resolved is a locally stored message
    whose id a wanted digest names; every wanted digest whose id a local
    message bears gives a message with that id; when the ids of the local
    buffer are unique the resolved messages are exactly the local messages
    a wanted digest names; a digest with no local message gives none, and
    no digest gives more than one. One synchronization with those messages
    is sent to the sender's address and port, and the buffers are
    unchanged. *)
Theorem solicitation_sends_resolved (r : Request) (st : Store)
  (missingDigestBuffer : DigestBuffer)
  (tAddr tPort hostAddr hostPort : string) (tRoundNumber : Z) :
  ReceiveSolicitation tr r
    = (missingDigestBuffer, tAddr, tPort, tRoundNumber, None) ->
  hostOf r = Some (hostAddr, hostPort) ->
  let messages := GetMissingMessageBuffer missingDigestBuffer (MsgBuf st) in
  (forall m, m ∈ Messages messages ->
     m ∈ Messages (MsgBuf st) /\
     exists d, d ∈ Digests missingDigestBuffer /\ DigestID d = ID m) /\
  (forall d x, d ∈ Digests missingDigestBuffer ->
     x ∈ Messages (MsgBuf st) -> ID x = DigestID d ->
     exists m, m ∈ Messages messages /\ ID m = DigestID d) /\
  (NoDup (map ID (Messages (MsgBuf st))) ->
   forall m, m ∈ Messages messages <->
     m ∈ Messages (MsgBuf st) /\
     exists d, d ∈ Digests missingDigestBuffer /\ DigestID d = ID m) /\
  (forall d, d ∈ Digests missingDigestBuffer ->
     (forall x, x ∈ Messages (MsgBuf st) -> ID x <> DigestID d) ->
     forall m, m ∈ Messages messages -> ID m <> DigestID d) /\
  length (Messages messages) <= length (Digests missingDigestBuffer) /\
  exists st', solicitationHandler tr r cfg st = Returned st' /\
    MsgBuf st' = MsgBuf st /\ PeerBuf st' = PeerBuf st /\
    Wire st' =
    (Wire st ++
     [Synchronization
        {| SynchronizationAddr := hostAddr;
           SynchronizationPort := hostPort;
           SynchronizationMessages := messages |} tAddr tPort])%list.
Proof.
  intros Hrecv Hhost messages.
  assert (Hin : forall m, m ∈ Messages messages ->
            m ∈ Messages (MsgBuf st) /\
            exists d, d ∈ Digests missingDigestBuffer /\ DigestID d = ID m).
  { intros m Hm. apply elem_of_GetMissingMessageBuffer in Hm as (d & Hd & Hf).
    apply findMessage_Some in Hf as [Hloc Hid]. split; [done|]. by exists d. }
  split; [exact Hin|]. split; [|split; [|split; [|split]]].
  - intros d x Hd Hx Hid.
    destruct (findMessage_is_Some (DigestID d) (MsgBuf st) x Hx Hid)
      as (m & Hf & _ & Hm).
    exists m. split; [|done].
    apply elem_of_GetMissingMessageBuffer. by exists d.
  - intros Hnd m. split; [apply Hin|].
    intros (Hm & d & Hd & Hid).
    apply elem_of_GetMissingMessageBuffer. exists d. split; [done|].
    rewrite Hid. by apply findMessage_unique.
  - intros d Hd Hnone m Hm Heq. apply Hin in Hm as [Hloc _].
    by apply (Hnone m).
  - apply GetMissingMessageBuffer_length.
  - unfold solicitationHandler. rewrite Hrecv, Hhost. fold messages.
    destruct (sendError tr _); eexists; (split; [reflexivity|]); done.
Qed.

(** C8. An exchange whose body does not decode changes neither the
    message buffer nor the peer buffer, sends nothing and invokes no
    callback. The gossip and the solicitation handlers log the error and
    return; the synchronization handler, which reads the [Host] first, logs
    the error and returns on a request whose [Host] has an address and a
    port. *)
Theorem decode_failure_drops_hop (k : Kind) (r : Request) (st : Store)
  (e : string) :
  decodeError k tr r = Some e ->
  let o := handlerOf k names tr r cfg st in
  Wire (finalStore o) = Wire st /\
  MsgBuf (finalStore o) = MsgBuf st /\
  PeerBuf (finalStore o) = PeerBuf st /\
  Calls (finalStore o) = Calls st /\
  match k with
  | Gossip | SolicitationKind => o = Returned (Printf e st)
  | SynchronizationKind =>
      forall hostAddr hostPort, hostOf r = Some (hostAddr, hostPort) ->
        o = Returned (Printf (receiveErrorLine hostAddr hostPort e) st)
  end.
Proof.
  intros He o. subst o. destruct k; cbn [decodeError handlerOf] in *.
  - unfold gossipHandler.
    destruct (ReceiveGossip tr r) as [[[[b a] p] n] x]. cbn in He. by subst x.
  - unfold solicitationHandler.
    destruct (ReceiveSolicitation tr r) as [[[[b a] p] n] x]. cbn in He.
    by subst x.
  - unfold synchronizationHandler.
    destruct (ReceiveSynchronization tr r) as [[[b a] p] x]. cbn in He.
    subst x. destruct (hostOf r) as [[ha hp]|]; cbn; repeat split; try done.
    by intros hostAddr hostPort [= <- <-].
Qed.

(** C10. Each handler reads the elements 0 and 1 of the [Host] header
    split on [":"]: the address and the port of a header [addr:port].
    The two reads are in bounds exactly when the header contains [":"]; on
    a request that decodes and whose [Host] has no [":"] the handler panics,
    with a [":"] it returns, and there is a request of the first kind. *)
Theorem host_index_needs_colon :
  (forall r, hostOf r = None <-> Strings.ContainsChar (Host r) ":" = false) /\
  (forall r addr port,
     Strings.ContainsChar addr ":" = false ->
     Strings.ContainsChar port ":" = false ->
     Host r = addr +:+ String ":" port -> hostOf r = Some (addr, port)) /\
  (forall k r st, decodeError k tr r = None ->
     Strings.ContainsChar (Host r) ":" = false ->
     handlerOf k names tr r cfg st = Panicked st) /\
  (forall k r st, Strings.ContainsChar (Host r) ":" = true ->
     exists st', handlerOf k names tr r cfg st = Returned st') /\
  (exists r, Strings.ContainsChar (Host r) ":" = false /\
     forall st, synchronizationHandler names tr r cfg st = Panicked st).
Proof.
  split; [apply hostOf_None_iff|]. split.
  { intros r addr port Ha Hp. unfold Strings.ContainsChar in Ha, Hp.
    apply bool_decide_eq_false in Ha, Hp.
    apply hostOf_addr_port; lia. }
  split.
  { intros k r st Hdec Hno. apply hostOf_None_iff in Hno.
    destruct k; cbn [decodeError handlerOf] in *.
    - unfold gossipHandler.
      destruct (ReceiveGossip tr r) as [[[[b a] p] n] x]. cbn in Hdec.
      subst x. by rewrite Hno.
    - unfold solicitationHandler.
      destruct (ReceiveSolicitation tr r) as [[[[b a] p] n] x]. cbn in Hdec.
      subst x. by rewrite Hno.
    - unfold synchronizationHandler. by rewrite Hno. }
  split.
  { intros k r st Hyes.
    destruct (hostOf r) as [[ha hp]|] eqn:Hh.
    2:{ apply hostOf_None_iff in Hh. congruence. }
    destruct k; cbn [handlerOf].
    - unfold gossipHandler.
      destruct (ReceiveGossip tr r) as [[[[b a] p] n] [x|]]; [by eexists|].
      rewrite Hh. destruct (bool_decide _); [|by eexists].
      destruct (sendError tr _); by eexists.
    - unfold solicitationHandler.
      destruct (ReceiveSolicitation tr r) as [[[[b a] p] n] [x|]];
        [by eexists|].
      rewrite Hh. destruct (sendError tr _); by eexists.
    - unfold synchronizationHandler. rewrite Hh.
      destruct (ReceiveSynchronization tr r) as [[[b a] p] [x|]]; by eexists. }
  exists (Scenario.requestNoPort "/synchronization" "{}").
  split; reflexivity.
Qed.

End Handlers.

(** ** Starting the server *)

Lemma startServer_returns_failure (addr : string) (listenAndServe : error) :
  listenAndServe <> Some Server.ErrServerClosed ->
  (Server.startServer addr listenAndServe).1 = listenAndServe.
Proof.
  intros Hne. unfold Server.startServer.
  by rewrite bool_decide_eq_true_2.
Qed.

Lemma Start_returns_nil (addr : string) (listenAndServe : error) :
  (Server.Start addr listenAndServe).1 = None /\
  (Bmmc.Start addr listenAndServe).1 = None.
Proof. split; reflexivity. Qed.

(** C2. When [ListenAndServe] fails to bind, [startServer] returns the
    error and offers it on [errChan], yet [Start] of the server returns
    [nil], and so does [Start] of the node. *)
Theorem Start_swallows_bind_failure :
  let bindError := Some "listen tcp 127.0.0.1:8080: bind: address already in use" in
  (Server.startServer "localhost:8080" bindError).1 = bindError /\
  Server.errChanOffer "localhost:8080" bindError = bindError /\
  (Server.Start "localhost:8080" bindError).1 = None /\
  (Bmmc.Start "localhost:8080" bindError).1 = None.
Proof. repeat split. Qed.

(** ** The scenario *)

Section ScenarioFacts.

Import Buffer Callback Httputil Server Scenario.

(** A node without messages receives [m1], [m2] and [m3]: [m1] has no
    callback and is stored, [m2] is accepted by its custom callback, which
    also reports an error, and is stored, [m3] has a type nobody registered
    and is not stored. *)
Example synchronization_scenario :
  let o := synchronizationHandler specNames transport
             (request "/synchronization" "{}") cfg emptyStore in
  MsgBuf (finalStore o) = {| Messages := [m1; m2] |} /\
  Calls (finalStore o) = [CustomCall "review" "paper"] /\
  PeerBuf (finalStore o) = [].
Proof. vm_compute. repeat split. Qed.

(** The node that holds [m1] is told of [m1] and [m2] and asks for [m2]. *)
Example gossip_scenario :
  Wire (finalStore (gossipHandler transport (request "/gossip" "{}") cfg store))
  = [Solicitation
       {| SolicitationAddr := "localhost"; SolicitationPort := "8080";
          SolicitationRoundNumber := 7;
          SolicitationDigests := {| Digests := [digestOf m2] |} |}
       "10.0.0.2" "9000"].
Proof. vm_compute. reflexivity. Qed.

(** The node that holds [m1] is asked for [m1] and [m3] and sends [m1]. *)
Example solicitation_scenario :
  Wire (finalStore
          (solicitationHandler transport (request "/solicitation" "{}") cfg
             store))
  = [Synchronization
       {| SynchronizationAddr := "localhost"; SynchronizationPort := "8080";
          SynchronizationMessages := {| Messages := [m1] |} |}
       "10.0.0.2" "9000"].
Proof. vm_compute. reflexivity. Qed.


Lemma insertion_depends_only_on_ok_witness :
  MsgBuf (runCustomCallbacks m2 cfg "localhost" "8080" emptyStore)
  = {| Messages := [m2] |}.
Proof.
  destruct (insertion_depends_only_on_ok specNames cfg "localhost" "8080"
              m2 emptyStore) as [_ Hcustom].
  destruct (Hcustom acceptWithError) as [Hbuf _]; [reflexivity|].
  rewrite Hbuf. reflexivity.
Defined.

Lemma unregistered_type_leaves_store_witness :
  syncMessage specNames cfg "localhost" "8080" store m3 = store.
Proof.
  apply (unregistered_type_leaves_store specNames cfg "localhost" "8080"
           m3 store).
  - cbn. discriminate.
  - reflexivity.
  - reflexivity.
Defined.

Lemma gossip_solicits_missing_witness :
  exists st',
    gossipHandler transport (request "/gossip" "{}") cfg store = Returned st' /\
    Wire st' =
    [Solicitation
       {| SolicitationAddr := "localhost"; SolicitationPort := "8080";
          SolicitationRoundNumber := 7;
          SolicitationDigests := {| Digests := [digestOf m2] |} |}
       "10.0.0.2" "9000"].
Proof.
  destruct (gossip_solicits_missing transport cfg (request "/gossip" "{}")
              store {| Digests := [digestOf m1; digestOf m2] |}
              "10.0.0.2" "9000" "localhost" "8080" 7%Z)
    as [_ (st' & Hret & _ & _ & Hsent & _)]; [reflexivity | reflexivity |].
  exists st'. split; [exact Hret|].
  rewrite Hsent; [reflexivity|]. vm_compute. discriminate.
Defined.

(** A gossip that decodes and names a digest the node does not hold, on
    a request whose [Host] names no port: the handler panics and no
    solicitation is sent. *)
Example gossip_without_port_panics :
  gossipHandler transport (requestNoPort "/gossip" "{}") cfg store
  = Panicked store.
Proof. reflexivity. Qed.

Lemma gossip_without_port_sends_nothing :
  ~ (forall (tr : Transport) (r : Request) (cfg : Config) (st : Store)
       (digests : DigestBuffer) (tAddr tPort : string) (n : Z),
       ReceiveGossip tr r = (digests, tAddr, tPort, n, None) ->
       Digests (GetMissingDigests digests (DigestBufferOf (MsgBuf st))) <> [] ->
       exists msg,
         Wire (finalStore (gossipHandler tr r cfg st))
         = (Wire st ++ [Solicitation msg tAddr tPort])%list).
Proof.
  intros Hclaim.
  destruct (Hclaim transport (requestNoPort "/gossip" "{}") cfg store
              {| Digests := [digestOf m1; digestOf m2] |}
              "10.0.0.2" "9000" 7%Z eq_refl) as [msg Hsent].
  - vm_compute. discriminate.
  - vm_compute in Hsent. discriminate.
Qed.

Lemma solicitation_sends_resolved_witness :
  exists st',
    solicitationHandler transport (request "/solicitation" "{}") cfg store
    = Returned st' /\
    Wire st' =
    [Synchronization
       {| SynchronizationAddr := "localhost"; SynchronizationPort := "8080";
          SynchronizationMessages := {| Messages := [m1] |} |}
       "10.0.0.2" "9000"].
Proof.
  destruct (solicitation_sends_resolved transport cfg
              (request "/solicitation" "{}") store
              {| Digests := [digestOf m1; digestOf m3] |}
              "10.0.0.2" "9000" "localhost" "8080" 7%Z)
    as (_ & _ & _ & _ & _ & st' & Hret & _ & _ & Hsent);
    [reflexivity | reflexivity |].
  exists st'. split; [exact Hret|]. rewrite Hsent. reflexivity.
Defined.

(** A solicitation that decodes, on a request whose [Host] names no
    port: the handler panics and no synchronization is sent. *)
Example solicitation_without_port_panics :
  solicitationHandler transport (requestNoPort "/solicitation" "{}") cfg store
  = Panicked store.
Proof. reflexivity. Qed.

Lemma solicitation_without_port_sends_nothing :
  ~ (forall (tr : Transport) (r : Request) (cfg : Config) (st : Store)
       (wanted : DigestBuffer) (tAddr tPort : string) (n : Z),
       ReceiveSolicitation tr r = (wanted, tAddr, tPort, n, None) ->
       exists msg,
         Wire (finalStore (solicitationHandler tr r cfg st))
         = (Wire st ++ [Synchronization msg tAddr tPort])%list).
Proof.
  intros Hclaim.
  destruct (Hclaim transport (requestNoPort "/solicitation" "{}") cfg store
              {| Digests := [digestOf m1; digestOf m3] |}
              "10.0.0.2" "9000" 7%Z eq_refl) as [msg Hsent].
  vm_compute in Hsent. discriminate.
Qed.

Lemma decode_failure_drops_hop_witness :
  MsgBuf (finalStore
            (handlerOf SynchronizationKind specNames transport
               (request "/synchronization" "") cfg store))
  = MsgBuf store.
Proof.
  destruct (decode_failure_drops_hop specNames transport cfg
              SynchronizationKind (request "/synchronization" "") store "EOF")
    as (_ & Hbuf & _); [reflexivity|].
  exact Hbuf.
Defined.

(** A synchronization whose body does not decode, on a request whose
    [Host] names no port: the handler panics before it decodes, and nothing
    is logged. *)
Example synchronization_without_port_panics :
  decodeError SynchronizationKind transport
    (requestNoPort "/synchronization" "") = Some "EOF" /\
  synchronizationHandler specNames transport
    (requestNoPort "/synchronization" "") cfg store = Panicked store.
Proof. split; reflexivity. Qed.

Lemma decode_failure_without_port_not_logged :
  ~ (forall (names : Names) (tr : Transport) (r : Request) (cfg : Config)
       (st : Store) (k : Kind) (e : string),
       decodeError k tr r = Some e ->
       let st' := finalStore (handlerOf k names tr r cfg st) in
       (exists line, Logger st' = (Logger st ++ [line])%list) /\
       Wire st' = Wire st /\ MsgBuf st' = MsgBuf st /\
       PeerBuf st' = PeerBuf st).
Proof.
  intros Hclaim.
  destruct (Hclaim specNames transport (requestNoPort "/synchronization" "")
              cfg store SynchronizationKind "EOF" eq_refl)
    as [[line Hlog] _].
  vm_compute in Hlog. discriminate.
Qed.

Lemma host_index_needs_colon_witness :
  handlerOf Gossip specNames transport (requestNoPort "/gossip" "{}") cfg store
  = Panicked store.
Proof.
  destruct (host_index_needs_colon specNames transport cfg)
    as (_ & _ & Hpanic & _).
  apply Hpanic; reflexivity.
Defined.

End ScenarioFacts.

(* ===================================================================== *)
(** * Further properties of the handlers *)

Section HandlerFrames.

Import Buffer Callback Httputil Server.

Variable names : Names.
Variable tr : Transport.
Variable cfg : Config.

Lemma runCustomCallbacks_frame (m : Message) (a p : string) (st : Store) :
  let st' := runCustomCallbacks m cfg a p st in
  PeerBuf st' = PeerBuf st /\ Wire st' = Wire st /\
  GossipRound st' = GossipRound st.
Proof.
  cbv zeta. destruct (customFor cfg m) as [f|] eqn:Hf.
  - rewrite (runCustomCallbacks_matched cfg a p m st f Hf).
    match goal with
    | |- context [afterCallback ?r ?m ?a ?p ?s] =>
        destruct (afterCallback_frame a p r m s) as (-> & -> & _ & ->)
    end.
    done.
  - by rewrite runCustomCallbacks_unmatched.
Qed.

Lemma runDefaultCallbacks_frame (m : Message) (a p : string) (st : Store) :
  let st' := runDefaultCallbacks names m cfg a p st in
  Wire st' = Wire st /\ GossipRound st' = GossipRound st /\
  (peerTarget names m st = None -> PeerBuf st' = PeerBuf st).
Proof.
  cbv zeta. destruct (defaultFor cfg m) as [f|] eqn:Hf.
  - unfold Server.defaultFor in Hf.
    unfold runDefaultCallbacks, GetDefaultCallback. rewrite Hf.
    destruct (f m (peerTarget names m st)) as [r peers].
    match goal with
    | |- context [afterCallback ?r ?m ?a ?p ?s] =>
        destruct (afterCallback_frame a p r m s) as (-> & -> & _ & ->)
    end.
    destruct (peerTarget names m st); cbn; repeat split; done.
  - by rewrite runDefaultCallbacks_unmatched.
Qed.

Lemma syncMessage_frame (a p : string) (st : Store) (m : Message) :
  let st' := syncMessage names cfg a p st m in
  Wire st' = Wire st /\ GossipRound st' = GossipRound st.
Proof.
  cbv zeta. unfold syncMessage. case_bool_decide; [|done].
  destruct (runCustomCallbacks_frame m a p
              (runDefaultCallbacks names m cfg a p st)) as (_ & -> & ->).
  destruct (runDefaultCallbacks_frame m a p st) as (-> & -> & _). done.
Qed.

Lemma fold_syncMessage_frame (a p : string) (msgs : list Message)
  (st : Store) :
  let st' := fold_left (syncMessage names cfg a p) msgs st in
  Wire st' = Wire st /\ GossipRound st' = GossipRound st.
Proof.
  cbv zeta. revert st. induction msgs as [|m msgs IH]; intros st; [done|].
  cbn [fold_left]. destruct (IH (syncMessage names cfg a p st m)) as [-> ->].
  apply syncMessage_frame.
Qed.

(** X1. Whatever the request, the synchronization handler sends nothing
    and leaves the round counter as it was. *)
Theorem synchronization_never_sends (r : Request) (st : Store) :
  let st' := finalStore (synchronizationHandler names tr r cfg st) in
  Wire st' = Wire st /\ GossipRound st' = GossipRound st.
Proof.
  cbv zeta. unfold synchronizationHandler.
  destruct (hostOf r) as [[a p]|]; [|done].
  destruct (ReceiveSynchronization tr r) as [[[b ta] tp] [e|]]; [done|].
  apply fold_syncMessage_frame.
Qed.

(** X2. Whatever the request, the gossip handler and the solicitation
    handler leave the message buffer, the peer buffer and the round counter
    as they were and invoke no callback; the gossip handler sends nothing or
    one solicitation, the solicitation handler nothing or one
    synchronization, also when the send fails. *)
Theorem gossip_solicitation_read_only (r : Request) (st : Store) :
  (let st' := finalStore (gossipHandler tr r cfg st) in
   MsgBuf st' = MsgBuf st /\ PeerBuf st' = PeerBuf st /\
   GossipRound st' = GossipRound st /\ Calls st' = Calls st /\
   (Wire st' = Wire st \/
    exists msg a p, Wire st' = (Wire st ++ [Solicitation msg a p])%list)) /\
  (let st' := finalStore (solicitationHandler tr r cfg st) in
   MsgBuf st' = MsgBuf st /\ PeerBuf st' = PeerBuf st /\
   GossipRound st' = GossipRound st /\ Calls st' = Calls st /\
   (Wire st' = Wire st \/
    exists msg a p, Wire st' = (Wire st ++ [Synchronization msg a p])%list)).
Proof.
  cbv zeta. split.
  - unfold gossipHandler.
    destruct (ReceiveGossip tr r) as [[[[b ta] tp] n] [e|]];
      [cbn; repeat split; auto|].
    destruct (hostOf r) as [[a p]|]; [|cbn; repeat split; auto].
    case_bool_decide; [|cbn; repeat split; auto].
    destruct (sendError tr _); cbn; repeat split; eauto.
  - unfold solicitationHandler.
    destruct (ReceiveSolicitation tr r) as [[[[b ta] tp] n] [e|]];
      [cbn; repeat split; auto|].
    destruct (hostOf r) as [[a p]|]; [|cbn; repeat split; auto].
    destruct (sendError tr _); cbn; repeat split; eauto.
Qed.

End HandlerFrames.

Section Synchronization.

Import Buffer Callback Httputil Server.

Variable names : Names.
Variable tr : Transport.
Variable cfg : Config.

Lemma fold_plain_messages (a p : string) (msgs : list Message) (st : Store) :
  (forall m, m ∈ msgs -> CallbackType m = NOCALLBACK names) ->
  let st' := fold_left (syncMessage names cfg a p) msgs st in
  MsgBuf st' = fold_left (fun b m => AddMessage m b) msgs (MsgBuf st) /\
  PeerBuf st' = PeerBuf st /\ Calls st' = Calls st /\
  Logger st' =
  (Logger st ++
   map (fun m => syncedLine a p (ID m) (GossipRound st)) msgs)%list.
Proof.
  cbv zeta. revert st. induction msgs as [|m msgs IH]; intros st Hall.
  - cbn. by rewrite app_nil_r.
  - cbn [fold_left map].
    assert (Hm : CallbackType m = NOCALLBACK names) by (apply Hall; left).
    assert (Hstep : syncMessage names cfg a p st m
                    = Printf (syncedLine a p (ID m) (GossipRound st))
                        (addMessage m st)).
    { unfold syncMessage. rewrite bool_decide_eq_false_2; [done|].
      intros Hn. by apply Hn. }
    rewrite Hstep.
    destruct (IH (Printf (syncedLine a p (ID m) (GossipRound st))
                    (addMessage m st))) as (-> & -> & -> & ->).
    { intros x Hx. apply Hall. by right. }
    cbn. by rewrite <- (assoc_L app).
Qed.

(** X3. A synchronization that brings only messages without callback, on
    a request whose [Host] has an address and a port: the message buffer is
    the old one with [AddMessage] applied to the messages in the order
    received, one line is logged for each message, with the round number
    the handler started in, no callback is invoked, whatever the
    registries hold, and the peer buffer is unchanged. *)
Theorem synchronization_of_plain_messages (r : Request) (st : Store)
  (rcvMsgBuf : MessageBuffer) (tAddr tPort hostAddr hostPort : string) :
  hostOf r = Some (hostAddr, hostPort) ->
  ReceiveSynchronization tr r = (rcvMsgBuf, tAddr, tPort, None) ->
  (forall m, m ∈ Messages rcvMsgBuf -> CallbackType m = NOCALLBACK names) ->
  exists st', synchronizationHandler names tr r cfg st = Returned st' /\
    MsgBuf st'
    = fold_left (fun b m => AddMessage m b) (Messages rcvMsgBuf) (MsgBuf st) /\
    PeerBuf st' = PeerBuf st /\ Calls st' = Calls st /\
    Logger st' =
    (Logger st ++
     map (fun m => syncedLine hostAddr hostPort (ID m) (GossipRound st))
       (Messages rcvMsgBuf))%list.
Proof.
  intros Hhost Hrecv Hall. unfold synchronizationHandler.
  rewrite Hhost, Hrecv. eexists. split; [reflexivity|].
  by apply fold_plain_messages.
Qed.

Lemma syncMessage_PeerBuf (a p : string) (st : Store) (m : Message) :
  defaultFor cfg m = None \/
  (CallbackType m <> ADDPEER names /\ CallbackType m <> REMOVEPEER names) ->
  PeerBuf (syncMessage names cfg a p st m) = PeerBuf st.
Proof.
  intros Hm. unfold syncMessage. case_bool_decide; [|done].
  destruct (runCustomCallbacks_frame cfg m a p
              (runDefaultCallbacks names m cfg a p st)) as (-> & _ & _).
  destruct Hm as [Hnone|[Hadd Hrem]].
  - by rewrite runDefaultCallbacks_unmatched.
  - destruct (runDefaultCallbacks_frame names cfg m a p st) as (_ & _ & Hp).
    apply Hp. unfold peerTarget.
    by rewrite !bool_decide_eq_false_2.
Qed.

(** X4. The peer buffer is changed by the default callbacks of [ADDPEER]
    and [REMOVEPEER] only: a synchronization none of whose messages has one
    of these two types with a default callback registered leaves the peer
    buffer as it was, whatever the other callbacks do and however the
    handler ends. *)
Theorem peers_change_only_by_membership_callbacks (r : Request) (st : Store) :
  (forall m, m ∈ Messages (ReceiveSynchronization tr r).1.1.1 ->
     defaultFor cfg m = None \/
     (CallbackType m <> ADDPEER names /\ CallbackType m <> REMOVEPEER names)) ->
  PeerBuf (finalStore (synchronizationHandler names tr r cfg st)) = PeerBuf st.
Proof.
  unfold synchronizationHandler.
  destruct (hostOf r) as [[a p]|]; [|done].
  destruct (ReceiveSynchronization tr r) as [[[b ta] tp] [e|]]; [done|].
  cbn [fst finalStore]. generalize (Messages b). intros msgs. revert st.
  induction msgs as [|m msgs IH]; intros st Hall; [done|].
  cbn [fold_left]. rewrite IH.
  - apply syncMessage_PeerBuf. apply Hall. left.
  - intros x Hx. apply Hall. by right.
Qed.


(** X6. On a path other than [/synchronization], where no callback is
    called, the handler a server is created with returns on every request
    whose [Host] contains [":"], returns without any effect when the path
    is none of the protocol's, and when it panics the [Host] has no [":"]
    and the store is as it was before the request. *)
Theorem Handler_panics_without_effect (r : Request) (st : Store) :
  URLPath r <> "/synchronization" ->
  (Strings.ContainsChar (Host r) ":" = true ->
   exists st', Handler names tr r cfg st = Returned st') /\
  (URLPath r <> "/gossip" -> URLPath r <> "/solicitation" ->
   Handler names tr r cfg st = Returned st) /\
  (forall st', Handler names tr r cfg st = Panicked st' ->
     st' = st /\ Strings.ContainsChar (Host r) ":" = false).
Proof.
  intros Hpath.
  assert (Hgossip : forall st',
            gossipHandler tr r cfg st = Panicked st' ->
            st' = st /\ hostOf r = None).
  { intros st'. unfold gossipHandler.
    destruct (ReceiveGossip tr r) as [[[[b ta] tp] n] [e|]]; [done|].
    destruct (hostOf r) as [[a p]|]; [|by intros [= <-]].
    case_bool_decide; [|done]. by destruct (sendError tr _). }
  assert (Hsol : forall st',
            solicitationHandler tr r cfg st = Panicked st' ->
            st' = st /\ hostOf r = None).
  { intros st'. unfold solicitationHandler.
    destruct (ReceiveSolicitation tr r) as [[[[b ta] tp] n] [e|]]; [done|].
    destruct (hostOf r) as [[a p]|]; [|by intros [= <-]].
    by destruct (sendError tr _). }
  assert (Hpanic : forall st',
            Handler names tr r cfg st = Panicked st' ->
            st' = st /\ hostOf r = None).
  { intros st'. unfold Handler.
    case_bool_decide; [apply Hgossip|].
    case_bool_decide; [apply Hsol|].
    by rewrite bool_decide_eq_false_2. }
  split; [|split].
  - intros Hcolon.
    destruct (Handler names tr r cfg st) as [st'|st']; [by eexists|].
    destruct (Hpanic st' eq_refl) as [_ Hnone].
    apply hostOf_None_iff in Hnone. congruence.
  - intros Hg Hs. unfold Handler. by rewrite !bool_decide_eq_false_2.
  - intros st' Hh. apply Hpanic in Hh as [-> Hnone]. split; [done|].
    by apply hostOf_None_iff.
Qed.

(** X7. With custom callbacks that pass [ValidateCustomCallbacks] against
    the table of default callbacks, no callback type is served by both
    registries, and the dispatch of a message invokes at most one
    callback. *)
Theorem validated_callbacks_dispatch_once (iter : list (string * CustomFn))
  (a p : string) (st : Store) (m : Message) :
  RangeOf (callbacks (CustomCallbacks cfg)) iter ->
  ValidateCustomCallbacks (defaults (DefaultCallbacks cfg)) iter = None ->
  (defaultFor cfg m = None \/ customFor cfg m = None) /\
  exists calls, length calls <= 1 /\
    Calls (syncMessage names cfg a p st m) = (Calls st ++ calls)%list.
Proof.
  intros Hrange Hvalid.
  assert (Hone : defaultFor cfg m = None \/ customFor cfg m = None).
  { destruct (defaultFor cfg m) as [fd|] eqn:Hd; [|by left]. right.
    destruct (customFor cfg m) as [fc|] eqn:Hc; [|done]. exfalso.
    assert (ValidateCustomCallbacks (defaults (DefaultCallbacks cfg)) iter
            = Some errNotAlowedCallbackType) as Herr; [|congruence].
    apply validateRange_error. exists (CallbackType m), fc. split.
    - by apply (RangeOf_elem (callbacks (CustomCallbacks cfg)) iter).
    - unfold Server.defaultFor in Hd. by rewrite Hd. }
  split; [exact Hone|].
  destruct (decide (CallbackType m = NOCALLBACK names)) as [Hs|Hs].
  - exists []. split; [cbn; lia|].
    destruct (syncMessage_sentinel names cfg a p m st Hs) as [_ ->].
    by rewrite app_nil_r.
  - exists (dispatched cfg m). split.
    + unfold dispatched. destruct Hone as [-> | ->].
      * destruct (customFor cfg m); cbn; lia.
      * destruct (defaultFor cfg m); cbn; lia.
    + by apply syncMessage_dispatch_Calls.
Qed.

End Synchronization.

(* ===================================================================== *)
(** * Further properties of the callback registry *)

Section RegistryMore.

Import Callback.

(** X8. For a registry made by [NewCustomRegistry] from a map,
    [RunCallbacks] calls the function the map holds for the callback type
    and ends as the call ends: with the error the function returns, or
    with its panic. When the map holds the nil function for the type the
    call panics; for a type the map does not hold nothing is run and no
    error is returned. *)
Theorem RunCallbacks_of_new_registry (cb : gomap FuncValue)
  (r : CustomRegistry FuncValue) (t : string) (msg : Payload) :
  NewCustomRegistry cb = (Some r, None) ->
  RunCallbacks r t msg
  = match mapIndex cb t with
    | Some (Some callbackFn) => callbackFn msg
    | Some None => Panics
    | None => Returns [] None
    end.
Proof.
  destruct cb as [g|]; cbn; [|done]. intros [= <-].
  unfold RunCallbacks, GetCallback. cbn.
  destruct (g !! t) as [[f|]|]; [|done..].
  by destruct (f msg) as [out [e|]|].
Qed.

(** X9. The result of [ValidateCustomCallbacks] does not depend on the
    order in which the map of custom callbacks is ranged over. *)
Theorem ValidateCustomCallbacks_order_irrelevant (D F : Type)
  (defaultCallbacks : gmap string D) (customCallbacks : gomap F)
  (iter1 iter2 : list (string * F)) :
  RangeOf customCallbacks iter1 -> RangeOf customCallbacks iter2 ->
  ValidateCustomCallbacks defaultCallbacks iter1
  = ValidateCustomCallbacks defaultCallbacks iter2.
Proof.
  intros H1 H2. unfold ValidateCustomCallbacks.
  assert (Hsame :
    validateRange defaultCallbacks iter1 = Some errNotAlowedCallbackType <->
    validateRange defaultCallbacks iter2 = Some errNotAlowedCallbackType).
  { rewrite !validateRange_error.
    split; intros (t & v & Hin & Hs); exists t, v; (split; [|done]).
    - apply (RangeOf_elem customCallbacks iter2 t v H2).
      by apply (RangeOf_elem customCallbacks iter1 t v H1).
    - apply (RangeOf_elem customCallbacks iter1 t v H1).
      by apply (RangeOf_elem customCallbacks iter2 t v H2). }
  destruct (validateRange_cases defaultCallbacks iter1) as [E1|E1],
           (validateRange_cases defaultCallbacks iter2) as [E2|E2];
    try congruence.
  - apply Hsame in E2. congruence.
  - apply Hsame in E1. congruence.
Qed.

End RegistryMore.

(* ===================================================================== *)
(** * Further properties of the server's life cycle *)

Section ListenAddress.

Import Strings Httputil Server.

Lemma countChar_app (c : ascii) (a b : string) :
  countChar c (a +:+ b) = countChar c a + countChar c b.
Proof.
  induction a as [|x a IH]; [done|].
  rewrite string_app_cons. cbn [countChar]. rewrite IH. lia.
Qed.

Lemma splitFrom_colon_pieces (s cur : string) :
  countChar ":" cur = 0 ->
  Forall (fun piece => countChar ":" piece = 0) (splitFrom ":" 0 cur s).
Proof.
  revert cur. induction s as [|c s IH]; intros cur Hcur.
  - cbn. by apply Forall_singleton.
  - cbn [splitFrom String.prefix String.length Nat.sub].
    destruct (Ascii.ascii_dec ":" c) as [<-|Hne].
    + rewrite prefix_empty. apply Forall_cons. split; [done|]. by apply IH.
    + apply IH. rewrite countChar_app. cbn [countChar].
      rewrite bool_decide_eq_false_2 by congruence. lia.
Qed.

Lemma hostOf_Some_no_colon (r : Request) (a p : string) :
  hostOf r = Some (a, p) -> countChar ":" a = 0 /\ countChar ":" p = 0.
Proof.
  unfold hostOf, Split.
  pose proof (splitFrom_colon_pieces (Host r) "" eq_refl) as Hall.
  destruct (splitFrom ":" 0 "" (Host r)) as [|x [|y l]]; cbn; try done.
  intros [= <- <-]. apply Forall_cons in Hall as [Hx Hall].
  apply Forall_cons in Hall as [Hy _]. done.
Qed.

(** X10. On a request sent to the address the server listens at, the
    handlers read back the configured address and port exactly when neither
    contains [":"]; whatever the [Host], the address and the port a handler
    reads contain no [":"]. *)
Theorem listen_address_read_back (cfg : Config) (r : Request) :
  Host r = listenAddr cfg ->
  (hostOf r = Some (Addr cfg, Port cfg) <->
   ContainsChar (Addr cfg) ":" = false /\ ContainsChar (Port cfg) ":" = false)
  /\
  (forall a p, hostOf r = Some (a, p) ->
     ContainsChar a ":" = false /\ ContainsChar p ":" = false).
Proof.
  intros Hhost. unfold ContainsChar. split.
  - rewrite !bool_decide_eq_false. split.
    + intros Hh. apply hostOf_Some_no_colon in Hh. lia.
    + intros [Ha Hp]. apply hostOf_addr_port; [lia | lia |].
      rewrite Hhost. reflexivity.
  - intros a p Hh. apply hostOf_Some_no_colon in Hh.
    rewrite !bool_decide_eq_false. lia.
Qed.

(** X11. [startServer] returns [nil] exactly when [ListenAndServe]
    returned [http.ErrServerClosed] (or [nil]); every other error is
    returned unchanged, after the line that reports it is logged, and a
    server closed in the regular way logs nothing but the first line. *)
Theorem startServer_reports_all_but_closed (addr : string)
  (listenAndServe : error) :
  ((startServer addr listenAndServe).1 = None <->
   listenAndServe = None \/ listenAndServe = Some ErrServerClosed) /\
  (forall e, listenAndServe = Some e -> e <> ErrServerClosed ->
     startServer addr listenAndServe
     = (Some e, ["Server listening at " +:+ addr;
                 "Unable to start  server: " +:+ e])) /\
  (listenAndServe = Some ErrServerClosed ->
   startServer addr listenAndServe = (None, ["Server listening at " +:+ addr])).
Proof.
  unfold startServer. split; [|split].
  - case_bool_decide as Hc; cbn.
    + split; [by left|]. intros [-> | ->]; [done|]. by destruct Hc.
    + split; [|done]. intros _. right.
      destruct (decide (listenAndServe = Some ErrServerClosed)); [done|].
      by destruct Hc.
  - intros e -> Hne. rewrite bool_decide_eq_true_2 by congruence. done.
  - intros ->. rewrite bool_decide_eq_false_2; [done|]. intros Hn. by apply Hn.
Qed.

End ListenAddress.

Section NodeLifeCycle.

Import Bmmc.

Lemma StartNode_stop (e : error) (b : Node) :
  let b' := (StartNode e b).2 in
  stop b' = Some (length (channels b)) /\
  channels b' = (channels b ++ [false])%list /\
  exists gs, running b' = (running b ++ gs)%list /\
    (GoHTTP Server.GoShutdownOnStop, length (channels b)) ∈ gs.
Proof.
  cbv zeta. unfold StartNode.
  destruct (Start (listen b) e) as [err gs] eqn:Hs. cbn.
  split; [done|]. split; [done|]. eexists. split; [reflexivity|].
  unfold Start in Hs. cbn in Hs.
  injection Hs as _ <-. cbn. right. left.
Qed.

Lemma Stop_returned (b b' : Node) :
  Stop b = StopReturned b' <->
  exists c, stop b = Some c /\ channels b !! c = Some false /\
    b' = {| peerBuffer := peerBuffer b; msgBuffer := msgBuffer b;
            listen := listen b; stop := stop b;
            channels := <[c := true]> (channels b);
            running := running b |}.
Proof.
  unfold Stop. destruct (stop b) as [c|]; [|split; [done|]].
  - destruct (channels b !! c) as [[|]|] eqn:Hc.
    + split; [done|]. intros (c' & [= <-] & Hf & _). congruence.
    + split.
      * intros [= <-]. by exists c.
      * intros (c' & [= <-] & _ & ->). done.
    + split; [done|]. intros (c' & [= <-] & Hf & _). congruence.
  - intros (c & Hc & _). done.
Qed.

Lemma run_snoc (ops : list Op) (op : Op) (b : Node) :
  run (ops ++ [op]) b
  = match run ops b with
    | Some b' => step op b'
    | None => None
    end.
Proof.
  revert b. induction ops as [|o ops IH]; intros b; cbn.
  - by destruct (step op b).
  - destruct (step o b); [apply IH | done].
Qed.

(** X12. After any calls of [Start] and [Stop] on a new node that did
    not panic, [Stop] returns if the last call was [Start] and panics
    otherwise: on a node never started it closes the nil channel, on a node
    already stopped it closes a closed channel. *)
Theorem Stop_returns_iff_just_started (cfg : Config) (ops : list Op)
  (b : Node) :
  run ops (New cfg) = Some b ->
  (exists b', Stop b = StopReturned b') <->
  (exists ops' e, ops = (ops' ++ [OpStart e])%list).
Proof.
  destruct ops as [|op ops _] using rev_ind.
  - intros [= <-]. split.
    + intros [b' Hb']. done.
    + intros (ops' & e & Habs). by destruct ops'.
  - rewrite run_snoc. destruct (run ops (New cfg)) as [b0|]; [|done].
    destruct op as [e|]; cbn [step].
    + intros [= <-]. split; [intros _; by exists ops, e|]. intros _.
      destruct (StartNode_stop e b0) as (Hstop & Hch & _).
      eexists. apply Stop_returned. exists (length (channels b0)).
      split; [done|]. split; [|reflexivity].
      cbn [channels]. by rewrite lookup_app_r, Nat.sub_diag.
    + destruct (Stop b0) as [b1|] eqn:Hs; [|done]. intros [= <-].
      apply Stop_returned in Hs as (c & Hc & Hopen & ->). split.
      * intros [b' Hb']. apply Stop_returned in Hb' as (c' & Hc' & Hopen' & _).
        cbn in Hc', Hopen'. rewrite Hc in Hc'. injection Hc' as <-.
        rewrite list_lookup_insert_eq in Hopen'; [done|].
        by apply lookup_lt_Some in Hopen.
      * intros (ops' & e & Habs). apply app_inj_tail in Habs as [_ Habs].
        done.
Qed.

Lemma step_keeps_replaced_channel (op : Op) (b b' : Node) (c : nat) :
  channels b !! c = Some false -> stop b <> Some c ->
  step op b = Some b' ->
  channels b' !! c = Some false /\ stop b' <> Some c /\
  exists gs, running b' = (running b ++ gs)%list.
Proof.
  intros Hopen Hnot. destruct op as [e|]; cbn [step].
  - intros Hb. assert (b' = (StartNode e b).2) as -> by congruence.
    destruct (StartNode_stop e b) as (-> & -> & gs & -> & _).
    pose proof (lookup_lt_Some _ _ _ Hopen) as Hlt.
    split; [by rewrite lookup_app_l|]. split; [|by exists gs].
    intros [= Heq]. lia.
  - destruct (Stop b) as [b1|] eqn:Hs; [|done]. intros [= <-].
    apply Stop_returned in Hs as (c0 & Hc0 & _ & ->). cbn.
    split; [|split; [done | exists []; by rewrite app_nil_r]].
    rewrite list_lookup_insert_ne; [done|]. intros ->. by apply Hnot.
Qed.

Lemma run_keeps_replaced_channel (ops : list Op) (b b' : Node) (c : nat) :
  channels b !! c = Some false -> stop b <> Some c ->
  run ops b = Some b' ->
  channels b' !! c = Some false /\ stop b' <> Some c.
Proof.
  revert b. induction ops as [|op ops IH]; intros b Hopen Hnot.
  - by intros [= <-].
  - cbn [run]. destruct (step op b) as [b1|] eqn:Hstep; [|done].
    destruct (step_keeps_replaced_channel op b b1 c Hopen Hnot Hstep)
      as (Hopen1 & Hnot1 & _).
    by apply IH.
Qed.

(** X13. A channel that is open and is no longer the one the node holds
    in [stop] stays open whatever calls follow: [Stop] closes the channel
    of the latest [Start] only. *)
Theorem replaced_channel_stays_open (ops : list Op) (b b' : Node) (c : nat) :
  channels b !! c = Some false -> stop b <> Some c ->
  run ops b = Some b' ->
  channels b' !! c = Some false /\ stop b' <> Some c.
Proof.
  revert b. induction ops as [|op ops IH]; intros b Hopen Hnot Hrun.
  - injection Hrun as <-. done.
  - cbn [run] in Hrun. destruct (step op b) as [b1|] eqn:Hstep; [|done].
    destruct (step_keeps_replaced_channel op b b1 c Hopen Hnot Hstep)
      as (Hopen1 & Hnot1 & _).
    exact (IH b1 Hopen1 Hnot1 Hrun).
Qed.

Lemma run_running_grows (ops : list Op) (b b' : Node) :
  run ops b = Some b' -> exists gs, running b' = (running b ++ gs)%list.
Proof.
  revert b. induction ops as [|op ops IH]; intros b.
  - intros [= <-]. exists []. by rewrite app_nil_r.
  - cbn [run]. destruct (step op b) as [b1|] eqn:Hstep; [|done].
    intros Hrun. apply IH in Hrun as [gs2 ->].
    assert (exists gs1, running b1 = (running b ++ gs1)%list) as [gs1 ->].
    { destruct op as [e|]; cbn [step] in Hstep.
      - assert (b1 = (StartNode e b).2) as -> by congruence.
        destruct (StartNode_stop e b) as (_ & _ & gs & -> & _). by exists gs.
      - destruct (Stop b) as [b2|] eqn:Hs; [|done]. injection Hstep as <-.
        apply Stop_returned in Hs as (c0 & _ & _ & ->).
        exists []. by rewrite app_nil_r. }
    exists (gs1 ++ gs2)%list. by rewrite (assoc_L app).
Qed.

(** X14. When [Start] is called twice in a row, the goroutine that the
    first call left waiting to shut the HTTP server down is still there
    after any later calls and is never told to stop. *)
Theorem second_Start_orphans_first (e1 e2 : error) (ops : list Op)
  (b b' : Node) :
  run (OpStart e1 :: OpStart e2 :: ops) b = Some b' ->
  let waiting := (GoHTTP Server.GoShutdownOnStop, length (channels b)) in
  waiting ∈ running b' /\ ~ toldToStop b' waiting.
Proof.
  intros Hrun waiting. subst waiting. cbn [run step] in Hrun.
  set (b1 := (StartNode e1 b).2) in *.
  set (b2 := (StartNode e2 b1).2) in *.
  destruct (StartNode_stop e1 b) as (Hs1 & Hc1 & gs1 & Hr1 & Hin1).
  destruct (StartNode_stop e2 b1) as (Hs2 & Hc2 & gs2 & Hr2 & _).
  fold b1 in Hs1, Hc1, Hr1. fold b2 in Hs2, Hc2, Hr2.
  assert (Hopen : channels b2 !! length (channels b) = Some false).
  { rewrite Hc2, Hc1. rewrite lookup_app_l.
    - by rewrite lookup_app_r, Nat.sub_diag.
    - rewrite length_app. cbn. lia. }
  assert (Hnot : stop b2 <> Some (length (channels b))).
  { rewrite Hs2, Hc1, length_app. cbn. intros [= Heq]. lia. }
  split.
  - apply run_running_grows in Hrun as [gs ->]. rewrite Hr2, Hr1.
    apply elem_of_app. left. apply elem_of_app. left.
    apply elem_of_app. by right.
  - destruct (run_keeps_replaced_channel ops b2 b' _ Hopen Hnot Hrun)
      as [Hstill _].
    unfold toldToStop. cbn. rewrite Hstill. done.
Qed.

End NodeLifeCycle.

(* ===================================================================== *)
(** * The further properties on the scenario *)

Section ScenarioMore.

Import Buffer Callback Httputil Server Scenario.

(** An address with [":"] in it is not read back: the handlers take the
    empty string for the address of a node that listens at [[::1]:8080]
    written without brackets. *)
Example listen_address_with_colon :
  hostOf {| Host := listenAddr {| Addr := "::1"; Port := "8080";
                                  DefaultCallbacks := DefaultCallbacks cfg;
                                  CustomCallbacks := CustomCallbacks cfg |};
            URLPath := "/gossip"; Body := "{}" |}
  = Some ("", "").
Proof. reflexivity. Qed.

(** A send that fails is logged and not tried again. *)
Example gossip_send_failure :
  let st' := finalStore (gossipHandler transportByBody
                           (request "/gossip" "{}") cfg store) in
  length (Wire st') = 1 /\ Logger st' = ["connection refused"].
Proof. vm_compute. split; reflexivity. Qed.

Lemma synchronization_of_plain_messages_witness :
  exists st',
    synchronizationHandler specNames transportByBody
      (request "/synchronization" "12") cfg store = Returned st' /\
    MsgBuf st' = {| Messages := [m1; m4] |}.
Proof.
  destruct (synchronization_of_plain_messages specNames transportByBody cfg
              (request "/synchronization" "12") store
              {| Messages := [m1; m4] |} "10.0.0.2" "9000"
              "localhost" "8080")
    as (st' & Hret & Hbuf & _).
  - reflexivity.
  - reflexivity.
  - intros m Hm. apply elem_of_cons in Hm as [->|Hm]; [reflexivity|].
    apply list_elem_of_singleton in Hm as ->. reflexivity.
  - exists st'. split; [exact Hret|]. rewrite Hbuf. reflexivity.
Defined.

Lemma peers_change_only_by_membership_callbacks_witness :
  PeerBuf (finalStore (synchronizationHandler specNames transport
                         (request "/synchronization" "{}") cfg store))
  = [].
Proof.
  rewrite (peers_change_only_by_membership_callbacks specNames transport cfg
             (request "/synchronization" "{}") store); [reflexivity|].
  intros m Hm. right. cbn in Hm.
  repeat (apply elem_of_cons in Hm as [->|Hm]; [split; discriminate|]).
  by apply elem_of_nil in Hm.
Defined.


Lemma Handler_panics_without_effect_witness :
  (exists st', Handler specNames transport (request "/gossip" "{}") cfg store
               = Returned st') /\
  Handler specNames transport (request "/metrics" "{}") cfg store
  = Returned store.
Proof.
  split.
  - destruct (Handler_panics_without_effect specNames transport cfg
                (request "/gossip" "{}") store) as (Hret & _ & _).
    + cbn. discriminate.
    + apply Hret. reflexivity.
  - destruct (Handler_panics_without_effect specNames transport cfg
                (request "/metrics" "{}") store) as (_ & Hnoop & _).
    + cbn. discriminate.
    + apply Hnoop; cbn; discriminate.
Defined.

Lemma validated_callbacks_dispatch_once_witness :
  defaultFor cfg m2 = None \/ customFor cfg m2 = None.
Proof.
  destruct (validated_callbacks_dispatch_once specNames cfg
              [("review", acceptWithError)] "localhost" "8080" store m2)
    as [Hone _].
  - cbn. by rewrite insert_empty, map_to_list_singleton.
  - reflexivity.
  - exact Hone.
Defined.

Lemma RunCallbacks_of_new_registry_witness :
  let r := {| callbacks := Some callbackMap |} in
  RunCallbacks r "log" "hello" = Returns ["got hello"] (Some "rejected") /\
  RunCallbacks r "boom" "hello" = Panics /\
  RunCallbacks r "nil" "hello" = Panics /\
  RunCallbacks r "other" "hello" = Returns [] None.
Proof.
  intros r. split; [|split; [|split]].
  - rewrite (RunCallbacks_of_new_registry (Some callbackMap) r "log" "hello");
      reflexivity.
  - rewrite (RunCallbacks_of_new_registry (Some callbackMap) r "boom" "hello");
      reflexivity.
  - rewrite (RunCallbacks_of_new_registry (Some callbackMap) r "nil" "hello");
      reflexivity.
  - rewrite (RunCallbacks_of_new_registry (Some callbackMap) r "other" "hello");
      reflexivity.
Defined.

Lemma ValidateCustomCallbacks_order_irrelevant_witness :
  ValidateCustomCallbacks reservedTable
    [("review", acceptAll); ("ADDPEER", rejectAll)]
  = ValidateCustomCallbacks reservedTable
      [("ADDPEER", rejectAll); ("review", acceptAll)].
Proof.
  apply (ValidateCustomCallbacks_order_irrelevant unit CustomFn reservedTable
           (Some (<["review" := acceptAll]> (<["ADDPEER" := rejectAll]> ∅)))).
  - cbn. rewrite map_to_list_insert by reflexivity.
    by rewrite insert_empty, map_to_list_singleton.
  - cbn. rewrite map_to_list_insert by reflexivity.
    rewrite insert_empty, map_to_list_singleton. apply Permutation_swap.
Defined.

Lemma listen_address_read_back_witness :
  hostOf (request "/gossip" "{}") = Some ("localhost", "8080").
Proof.
  destruct (listen_address_read_back cfg (request "/gossip" "{}"))
    as [[_ Hback] _]; [reflexivity|].
  apply Hback. split; reflexivity.
Defined.

Lemma Stop_returns_iff_just_started_witness :
  exists b', Bmmc.run [Bmmc.OpStart None; Bmmc.OpStop; Bmmc.OpStart None]
               (Bmmc.New nodeCfg) = Some b' /\
    exists b'', Bmmc.Stop b' = Bmmc.StopReturned b''.
Proof.
  eexists. split; [reflexivity|].
  apply (Stop_returns_iff_just_started nodeCfg
           [Bmmc.OpStart None; Bmmc.OpStop; Bmmc.OpStart None]).
  - reflexivity.
  - by exists [Bmmc.OpStart None; Bmmc.OpStop], None.
Defined.

Lemma replaced_channel_stays_open_witness :
  exists b',
    Bmmc.run [Bmmc.OpStop; Bmmc.OpStart None; Bmmc.OpStop]
      (Bmmc.StartNode None (Bmmc.StartNode None (Bmmc.New nodeCfg)).2).2
    = Some b' /\
    Bmmc.channels b' !! 0%nat = Some false.
Proof.
  eexists. split; [reflexivity|].
  eapply (replaced_channel_stays_open
            [Bmmc.OpStop; Bmmc.OpStart None; Bmmc.OpStop]
            (Bmmc.StartNode None (Bmmc.StartNode None (Bmmc.New nodeCfg)).2).2
            _ 0).
  - reflexivity.
  - cbn. discriminate.
  - reflexivity.
Defined.

Lemma second_Start_orphans_first_witness :
  exists b',
    Bmmc.run [Bmmc.OpStart None; Bmmc.OpStart None; Bmmc.OpStop]
      (Bmmc.New nodeCfg) = Some b' /\
    ~ Bmmc.toldToStop b' (Bmmc.GoHTTP GoShutdownOnStop, 0%nat).
Proof.
  eexists. split; [reflexivity|].
  eapply (second_Start_orphans_first None None [Bmmc.OpStop]
            (Bmmc.New nodeCfg)).
  reflexivity.
Defined.

End ScenarioMore.

(* ===================================================================== *)
(** * [strings.Split] on the empty separator *)

Section SplitEmptySeparator.

Import Strings.

(** The bytes [0xC3 0xA9], one sequence of two bytes. *)
Local Abbreviation twoBytes :=
  (String (ascii_of_N 195) (String (ascii_of_N 169) "")).

(** The bytes [0xE2 0x82 0xAC], one sequence of three bytes. *)
Local Abbreviation threeBytes :=
  (String (ascii_of_N 226) (String (ascii_of_N 130)
     (String (ascii_of_N 172) ""))).

Example Split_empty_separator_ascii : Split "a:b" "" = ["a"; ":"; "b"].
Proof. reflexivity. Qed.

Example Split_empty_separator_sequences :
  Split ("a" +:+ twoBytes +:+ threeBytes +:+ "b") ""
  = ["a"; twoBytes; threeBytes; "b"].
Proof. reflexivity. Qed.

(** A lead byte without its continuation is a piece of its own. *)
Example Split_empty_separator_truncated :
  Split (String (ascii_of_N 195) "a") "" = [String (ascii_of_N 195) ""; "a"].
Proof. reflexivity. Qed.

Example Split_empty_separator_empty : Split "" "" = [].
Proof. reflexivity. Qed.

End SplitEmptySeparator.
